(** * A shallow embedding of the blackboard multi-agent risk pipeline

    Sources embedded here:
    - [src/mas.py]: [Blackboard], [AxiomInverterAgent], [PRAAgent];
    - [src/xcode_forensic.py]: [PatternRecognizer] and its signature catalog.

    Conventions.
    - A Python [str] is a [string] whose characters stand for the code
      points U+0000..U+00FF; the character tables below ([isspace],
      [lower_char], [isalnum]) follow Python on that range.
    - A Python [float] is idealised as an exact rational ([Q]); rounding is
      outside the model.  Numeric equalities are stated with [==].
    - A SQLite table is the list of its rows in rowid order, next to the
      AUTOINCREMENT counter of the table.  [CURRENT_TIMESTAMP] is an explicit
      argument [now] of every operation that reads the clock.
    - [sqlite3] binds a Python [int] only when it fits a signed 64-bit
      integer and raises [OverflowError] otherwise.  The two calls that look
      a row up by a caller-supplied identifier,
      [Blackboard.update_axiom_inversion] and
      [Blackboard.increment_pattern_occurrence], carry that error path.
      [Blackboard.record_failure_vector] is modelled for the identifiers its
      caller passes, which are read from the axioms table.
    - [print] and the terminal logger write to the console only; they are
      left out. *)

From Stdlib Require Import QArith Lqa ZArith Lia Bool List String Ascii.
From Stdlib Require Import Permutation Qround Relations Sorted.
Import ListNotations.

Open Scope string_scope.
Open Scope Z_scope.

(** ** Python built-ins used by the sources *)

Module Py.

Definition code (c : ascii) : N := N_of_ascii c.

Definition in_range (lo hi : N) (c : ascii) : bool :=
  (N.leb lo (code c) && N.leb (code c) hi)%bool.

(** [str.isspace] of one character: TAB..CR, FS..US, SPACE, NEL, NBSP. *)
Definition isspace (c : ascii) : bool :=
  (in_range 9 13 c || in_range 28 32 c
   || N.eqb (code c) 133 || N.eqb (code c) 160)%bool.

(** Upper-case letters: A-Z, and À-Þ without the multiplication sign. *)
Definition isupper (c : ascii) : bool :=
  (in_range 65 90 c
   || (in_range 192 222 c && negb (N.eqb (code c) 215)))%bool.

Definition lower_char (c : ascii) : ascii :=
  if isupper c then ascii_of_N (code c + 32) else c.

(** [str.lower] *)
Fixpoint lower (s : string) : string :=
  match s with
  | EmptyString => EmptyString
  | String c s' => String (lower_char c) (lower s')
  end.

(** Letters and numeric characters of the range, as [str.isalnum]. *)
Definition isalnum (c : ascii) : bool :=
  (in_range 48 57 c || in_range 65 90 c || in_range 97 122 c
   || N.eqb (code c) 170 || N.eqb (code c) 178 || N.eqb (code c) 179
   || N.eqb (code c) 181 || N.eqb (code c) 185 || N.eqb (code c) 186
   || in_range 188 190 c
   || (in_range 192 255 c && negb (N.eqb (code c) 215)
       && negb (N.eqb (code c) 247)))%bool.

Definition mem_char (c : ascii) (chars : string) : bool :=
  existsb (Ascii.eqb c) (list_ascii_of_string chars).

(** [str.lstrip(chars)] *)
Fixpoint lstrip (chars s : string) : string :=
  match s with
  | EmptyString => EmptyString
  | String c s' => if mem_char c chars then lstrip chars s' else s
  end.

(** [str.rstrip(chars)]: a character goes when everything after it went. *)
Fixpoint rstrip (chars s : string) : string :=
  match s with
  | EmptyString => EmptyString
  | String c s' =>
      match rstrip chars s' with
      | EmptyString => if mem_char c chars then EmptyString
                       else String c EmptyString
      | r => String c r
      end
  end.

(** [str.strip(chars)] *)
Definition strip (chars s : string) : string :=
  rstrip chars (lstrip chars s).

(** [str.split()] with no argument: maximal runs of non-space characters.
    [cur] is the word being read, in reverse. *)
Fixpoint split_aux (cur : list ascii) (s : string) : list string :=
  let flush (rest : list string) :=
    match cur with
    | [] => rest
    | _ => string_of_list_ascii (rev cur) :: rest
    end in
  match s with
  | EmptyString => flush []
  | String c s' =>
      if isspace c then flush (split_aux [] s')
      else split_aux (c :: cur) s'
  end.

Definition split (s : string) : list string := split_aux [] s.

(** [sep.join(words)] *)
Fixpoint join (sep : string) (words : list string) : string :=
  match words with
  | [] => EmptyString
  | [w] => w
  | w :: rest => w ++ sep ++ join sep rest
  end.

(** [needle in hay] on strings *)
Fixpoint contains (needle hay : string) : bool :=
  if prefix needle hay then true
  else match hay with
       | EmptyString => false
       | String _ hay' => contains needle hay'
       end.

(** [d.get(key)] on a dict kept as the list of its items, in insertion
    order. *)
Fixpoint dict_get {V : Type} (d : list (string * V)) (key : string)
  : option V :=
  match d with
  | [] => None
  | (k, v) :: d' => if String.eqb key k then Some v else dict_get d' key
  end.

(** [seq[:n]] *)
Definition take {A : Type} (n : nat) (l : list A) : list A := firstn n l.

(** Float comparisons and the two-argument [min] and [max], which return
    their first argument on a tie. *)
Definition Qgtb (x y : Q) : bool := negb (Qle_bool x y).
Definition Qgeb (x y : Q) : bool := Qle_bool y x.
Definition min (a b : Q) : Q := if Qgtb a b then b else a.
Definition max (a b : Q) : Q := if Qgtb b a then b else a.

(** [sum(xs)]: left to right from [0]. *)
Definition sum (xs : list Q) : Q := fold_left Qplus xs 0%Q.

(** [s.startswith(prefix)] *)
Definition startswith (s pre : string) : bool := prefix pre s.

End Py.

(** The result of a call that may raise: the value, or the name of the
    exception. *)
Inductive outcome (A : Type) : Type :=
| Ok (a : A)
| Raised (exn : string).

Arguments Ok {A} a.
Arguments Raised {A} exn.

(** ** [mas.py]: the blackboard *)

Module Blackboard.

(** A row of table [axioms]. *)
Record axiom_row : Type := {
  ax_id : Z;
  ax_component : string;
  ax_domain : option string;
  ax_statement : string;
  ax_inverted_statement : option string;
  ax_status : string;
  ax_created_at : Z;
  ax_updated_at : option Z
}.

(** A row of table [failure_vectors]. *)
Record vector_row : Type := {
  fv_id : Z;
  fv_axiom_id : Z;
  fv_description : string;
  fv_mechanism : option string;
  fv_probability : Q;
  fv_severity : Q;
  fv_risk_score : Q;
  fv_status : string;
  fv_created_at : Z
}.

(** A row of table [patterns]. *)
Record pattern_row : Type := {
  pt_id : Z;
  pt_name : string;
  pt_pattern_type : string;
  pt_regex : string;
  pt_risk_level : string;
  pt_description : option string;
  pt_occurrences : Z
}.

(** A value of an event payload. *)
Inductive pyval : Type :=
| PInt (n : Z)
| PFloat (x : Q)
| PStr (s : string).

(** A row of table [events]; the payload is kept as the items of the dict
    handed to [json.dumps]. *)
Record event_row : Type := {
  ev_id : Z;
  ev_agent : string;
  ev_event_type : string;
  ev_payload : list (string * pyval);
  ev_created_at : Z
}.

(** A notification put on the subscribers' queues:
    [{"type": t, key: id}]. *)
Record notification : Type := {
  nt_type : string;
  nt_key : string;
  nt_value : Z
}.

(** [queue.Queue(maxsize)]: the items, oldest first.  A [maxsize] of zero
    or less means the queue has no bound. *)
Record queue : Type := {
  q_maxsize : Z;
  q_items : list notification
}.

(** [queue.Queue()] *)
Definition new_queue : queue := {| q_maxsize := 0; q_items := [] |}.

(** [Queue.full()] *)
Definition full (q : queue) : bool :=
  (0 <? q_maxsize q) && (q_maxsize q <=? Z.of_nat (List.length (q_items q))).

(** [Queue.put_nowait(item)]; [None] is the exception [queue.Full]. *)
Definition put_nowait (q : queue) (item : notification) : option queue :=
  if full q then None
  else Some {| q_maxsize := q_maxsize q; q_items := q_items q ++ [item] |}.

(** The blackboard: four tables with their AUTOINCREMENT counters, and the
    queues handed out by [subscribe], in subscription order. *)
Record t : Type := {
  axioms : list axiom_row;
  failure_vectors : list vector_row;
  patterns : list pattern_row;
  events : list event_row;
  seq_axioms : Z;
  seq_failure_vectors : Z;
  seq_patterns : Z;
  seq_events : Z;
  subscribers : list queue
}.

(** [Blackboard()] after [_setup_schema]. *)
Definition init : t := {|
  axioms := [];
  failure_vectors := [];
  patterns := [];
  events := [];
  seq_axioms := 0;
  seq_failure_vectors := 0;
  seq_patterns := 0;
  seq_events := 0;
  subscribers := []
|}.

Definition set_axioms (bb : t) (rows : list axiom_row) (seq : Z) : t := {|
  axioms := rows;
  failure_vectors := failure_vectors bb;
  patterns := patterns bb;
  events := events bb;
  seq_axioms := seq;
  seq_failure_vectors := seq_failure_vectors bb;
  seq_patterns := seq_patterns bb;
  seq_events := seq_events bb;
  subscribers := subscribers bb
|}.

Definition set_failure_vectors (bb : t) (rows : list vector_row) (seq : Z)
  : t := {|
  axioms := axioms bb;
  failure_vectors := rows;
  patterns := patterns bb;
  events := events bb;
  seq_axioms := seq_axioms bb;
  seq_failure_vectors := seq;
  seq_patterns := seq_patterns bb;
  seq_events := seq_events bb;
  subscribers := subscribers bb
|}.

Definition set_patterns (bb : t) (rows : list pattern_row) (seq : Z) : t := {|
  axioms := axioms bb;
  failure_vectors := failure_vectors bb;
  patterns := rows;
  events := events bb;
  seq_axioms := seq_axioms bb;
  seq_failure_vectors := seq_failure_vectors bb;
  seq_patterns := seq;
  seq_events := seq_events bb;
  subscribers := subscribers bb
|}.

Definition set_events (bb : t) (rows : list event_row) (seq : Z) : t := {|
  axioms := axioms bb;
  failure_vectors := failure_vectors bb;
  patterns := patterns bb;
  events := rows;
  seq_axioms := seq_axioms bb;
  seq_failure_vectors := seq_failure_vectors bb;
  seq_patterns := seq_patterns bb;
  seq_events := seq;
  subscribers := subscribers bb
|}.

Definition set_subscribers (bb : t) (qs : list queue) : t := {|
  axioms := axioms bb;
  failure_vectors := failure_vectors bb;
  patterns := patterns bb;
  events := events bb;
  seq_axioms := seq_axioms bb;
  seq_failure_vectors := seq_failure_vectors bb;
  seq_patterns := seq_patterns bb;
  seq_events := seq_events bb;
  subscribers := qs
|}.

(** [subscribe]: a fresh unbounded queue is appended to the subscribers;
    the result is the board and the position of the queue, which stands
    for the reference the caller keeps. *)
Definition subscribe (bb : t) : t * nat :=
  (set_subscribers bb (subscribers bb ++ [new_queue]),
   List.length (subscribers bb)).

(** One turn of the loop of [_notify]: [try: q.put_nowait(event)
    except queue.Full: pass]. *)
Definition notify_one (event : notification) (q : queue) : queue :=
  match put_nowait q event with
  | Some q' => q'
  | None => q
  end.

(** [_notify] *)
Definition _notify (bb : t) (event : notification) : t :=
  set_subscribers bb (map (notify_one event) (subscribers bb)).

(** [_log_event] *)
Definition _log_event (now : Z) (bb : t) (agent event_type : string)
    (payload : list (string * pyval)) : t :=
  let id := seq_events bb + 1 in
  set_events bb
    (events bb ++ [{| ev_id := id; ev_agent := agent;
                      ev_event_type := event_type;
                      ev_payload := payload;
                      ev_created_at := now |}])
    id.

(** [add_axiom]: returns the board and [lastrowid]. *)
Definition add_axiom (now : Z) (bb : t) (component statement : string)
    (domain : option string) : t * Z :=
  let axiom_id := seq_axioms bb + 1 in
  let bb1 :=
    set_axioms bb
      (axioms bb ++ [{| ax_id := axiom_id;
                        ax_component := component;
                        ax_domain := domain;
                        ax_statement := statement;
                        ax_inverted_statement := None;
                        ax_status := "PENDING";
                        ax_created_at := now;
                        ax_updated_at := None |}])
      axiom_id in
  let bb2 :=
    _log_event now bb1 "Blackboard" "AXIOM_ADDED"
      [("axiom_id", PInt axiom_id); ("component", PStr component);
       ("statement", PStr statement)] in
  (_notify bb2 {| nt_type := "AXIOM_ADDED"; nt_key := "axiom_id";
                  nt_value := axiom_id |},
   axiom_id).

(** The [UPDATE axioms SET ... WHERE id = ?] of [update_axiom_inversion],
    on one row. *)
Definition invert_row (now axiom_id : Z) (inverted_statement : string)
    (r : axiom_row) : axiom_row :=
  if ax_id r =? axiom_id then
    {| ax_id := ax_id r;
       ax_component := ax_component r;
       ax_domain := ax_domain r;
       ax_statement := ax_statement r;
       ax_inverted_statement := Some inverted_statement;
       ax_status := "INVERTED";
       ax_created_at := ax_created_at r;
       ax_updated_at := Some now |}
  else r.

(** The integers [sqlite3] binds to a statement: those of the signed
    64-bit range.  For any other Python int [cursor.execute] raises
    [OverflowError]. *)
Definition sqlite_int (n : Z) : bool :=
  (-9223372036854775808 <=? n) && (n <=? 9223372036854775807).

(** [update_axiom_inversion]; an identifier that [sqlite3] cannot bind
    raises in [cursor.execute], before anything is written, logged or
    notified. *)
Definition update_axiom_inversion (now : Z) (bb : t) (axiom_id : Z)
    (inverted_statement : string) : outcome t :=
  if sqlite_int axiom_id then
    let bb1 :=
      set_axioms bb
        (map (invert_row now axiom_id inverted_statement) (axioms bb))
        (seq_axioms bb) in
    let bb2 :=
      _log_event now bb1 "AxiomInverter" "AXIOM_INVERTED"
        [("axiom_id", PInt axiom_id);
         ("inverted", PStr inverted_statement)] in
    Ok (_notify bb2 {| nt_type := "AXIOM_INVERTED"; nt_key := "axiom_id";
                       nt_value := axiom_id |})
  else Raised "OverflowError".

(** [record_failure_vector]: returns the board and [lastrowid]. *)
Definition record_failure_vector (now : Z) (bb : t) (axiom_id : Z)
    (description : string) (probability severity : Q)
    (mechanism : option string) : t * Z :=
  let risk_score := (probability * severity)%Q in
  let vector_id := seq_failure_vectors bb + 1 in
  let bb1 :=
    set_failure_vectors bb
      (failure_vectors bb ++ [{| fv_id := vector_id;
                                 fv_axiom_id := axiom_id;
                                 fv_description := description;
                                 fv_mechanism := mechanism;
                                 fv_probability := probability;
                                 fv_severity := severity;
                                 fv_risk_score := risk_score;
                                 fv_status := "IDENTIFIED";
                                 fv_created_at := now |}])
      vector_id in
  let bb2 :=
    _log_event now bb1 "PRA" "VECTOR_RECORDED"
      [("vector_id", PInt vector_id); ("risk_score", PFloat risk_score)] in
  (_notify bb2 {| nt_type := "VECTOR_RECORDED"; nt_key := "vector_id";
                  nt_value := vector_id |},
   vector_id).

(** [add_pattern]: returns the board and [lastrowid]. *)
Definition add_pattern (bb : t) (name pattern_type regex risk_level : string)
    (description : option string) : t * Z :=
  let id := seq_patterns bb + 1 in
  (set_patterns bb
     (patterns bb ++ [{| pt_id := id;
                         pt_name := name;
                         pt_pattern_type := pattern_type;
                         pt_regex := regex;
                         pt_risk_level := risk_level;
                         pt_description := description;
                         pt_occurrences := 0 |}])
     id,
   id).

(** The [UPDATE patterns SET occurrences = occurrences + 1 WHERE id = ?]
    of [increment_pattern_occurrence], on one row. *)
Definition bump_row (pattern_id : Z) (r : pattern_row) : pattern_row :=
  if pt_id r =? pattern_id then
    {| pt_id := pt_id r;
       pt_name := pt_name r;
       pt_pattern_type := pt_pattern_type r;
       pt_regex := pt_regex r;
       pt_risk_level := pt_risk_level r;
       pt_description := pt_description r;
       pt_occurrences := pt_occurrences r + 1 |}
  else r.

(** [increment_pattern_occurrence]; an identifier that [sqlite3] cannot
    bind raises in [cursor.execute]. *)
Definition increment_pattern_occurrence (bb : t) (pattern_id : Z)
  : outcome t :=
  if sqlite_int pattern_id then
    Ok (set_patterns bb (map (bump_row pattern_id) (patterns bb))
          (seq_patterns bb))
  else Raised "OverflowError".

(** [get_pending_axioms]; the rows stand for the dicts built from the
    selected columns. *)
Definition get_pending_axioms (bb : t) : list axiom_row :=
  filter (fun r => String.eqb (ax_status r) "PENDING") (axioms bb).

(** [get_inverted_axioms] *)
Definition get_inverted_axioms (bb : t) : list axiom_row :=
  filter (fun r => String.eqb (ax_status r) "INVERTED") (axioms bb).

(** [get_patterns] *)
Definition get_patterns (bb : t) : list pattern_row := patterns bb.

(** The dict returned by [get_statistics]. *)
Record statistics : Type := {
  total_axioms : nat;
  inverted_axioms : nat;
  count_failure_vectors : nat;
  avg_risk_score : Q;
  max_risk_score : Q
}.

(** [SELECT AVG(risk_score) FROM failure_vectors]; [None] is NULL, the
    value on an empty table. *)
Definition avg_score (rows : list vector_row) : option Q :=
  match rows with
  | [] => None
  | _ :: _ =>
      Some (Py.sum (map fv_risk_score rows)
            / inject_Z (Z.of_nat (List.length rows)))%Q
  end.

(** [SELECT MAX(risk_score) FROM failure_vectors] *)
Definition max_score (rows : list vector_row) : option Q :=
  match rows with
  | [] => None
  | r :: rest =>
      Some (fold_left (fun acc row => Py.max acc (fv_risk_score row)) rest
              (fv_risk_score r))
  end.

Section Statistics.

(** Python's [round(x, ndigits)] on a float.  Its result depends on the
    binary representation of [x], which the rationals do not carry (for
    instance [round(0.0005, 3)] is [0.001]), so it is left abstract. *)
Variable round : Q -> nat -> Q.

(** [round(x, 3) if x else 0]: NULL and zero both give [0]. *)
Definition rounded_or_zero (x : option Q) : Q :=
  match x with
  | None => 0%Q
  | Some v => if Qeq_bool v 0 then 0%Q else round v 3
  end.

(** [get_statistics] *)
Definition get_statistics (bb : t) : statistics :=
  {| total_axioms := List.length (axioms bb);
     inverted_axioms := List.length (get_inverted_axioms bb);
     count_failure_vectors := List.length (failure_vectors bb);
     avg_risk_score := rounded_or_zero (avg_score (failure_vectors bb));
     max_risk_score := rounded_or_zero (max_score (failure_vectors bb)) |}.

End Statistics.

End Blackboard.

(** ** [mas.py]: the agents *)

Module Agent.

(** [Agent.stats]; [start_time] is set once in [run] and never read. *)
Record stats : Type := {
  tasks_processed : Z;
  errors : Z
}.

(** The value given by [Agent.__init__]. *)
Definition init_stats : stats := {| tasks_processed := 0; errors := 0 |}.

(** [self.stats["tasks_processed"] += 1] *)
Definition task_done (s : stats) : stats :=
  {| tasks_processed := tasks_processed s + 1; errors := errors s |}.

(** [self.stats["errors"] += 1] *)
Definition error_seen (s : stats) : stats :=
  {| tasks_processed := tasks_processed s; errors := errors s + 1 |}.

(** [get_poll_interval] *)
Definition get_poll_interval : Q := 0.5.

End Agent.

Module AxiomInverterAgent.

Definition INVERSIONS : list (string * string) :=
  [ ("deterministic", "non-deterministic and entropy-dependent");
    ("consistent", "eventually consistent or divergent");
    ("immutable", "mutated by external side-effects");
    ("available", "unavailable or rate-limited");
    ("atomic", "interleaved and race-prone");
    ("static", "dynamically interposed");
    ("synchronous", "asynchronous and uncoordinated");
    ("reliable", "unreliable and failure-prone");
    ("secure", "vulnerable and exposed");
    ("fast", "slow and latency-bound");
    ("safe", "unsafe and hazardous");
    ("stable", "unstable and volatile");
    ("isolated", "shared and contended");
    ("unique", "duplicated or colliding");
    ("valid", "invalid or malformed");
    ("complete", "partial or truncated");
    ("ordered", "unordered or shuffled");
    ("cached", "uncached and cold");
    ("persistent", "ephemeral and transient");
    ("idempotent", "non-idempotent with side-effects");
    ("stateless", "stateful and context-dependent");
    ("guaranteed", "best-effort and lossy");
    ("sequential", "concurrent and racy");
    ("blocking", "non-blocking but incomplete");
    ("trusted", "untrusted and adversarial") ].

Definition NEGATIONS : list (string * string) :=
  [ ("always", "sometimes fails to");
    ("never", "occasionally does");
    ("will", "may not");
    ("must", "might not");
    ("should", "could fail to");
    ("can", "cannot reliably");
    ("is", "is not necessarily");
    ("are", "are not guaranteed to be");
    ("has", "may lack");
    ("does", "may fail to") ].

(** [word.lower().strip(".,;:!?")] *)
Definition lower_word (word : string) : string :=
  Py.strip ".,;:!?" (Py.lower word).

(** The body of the loop of [invert_logic]: what one word appends to
    [new_words]. *)
Definition invert_word (word : string) : string :=
  match Py.dict_get NEGATIONS (lower_word word) with
  | Some negation => negation
  | None =>
      match Py.dict_get INVERSIONS (lower_word word) with
      | Some inversion => inversion
      | None => word
      end
  end.

(** [invert_logic] *)
Definition invert_logic (statement : string) : string :=
  let words := Py.split statement in
  let new_words := map invert_word words in
  let result := Py.join " " new_words in
  if String.eqb result statement
  then "It is NOT guaranteed that: " ++ statement
  else result.

(** The loop of [process] over the snapshot [pending]; the last component
    is the exception that ended the loop, if one did. *)
Fixpoint process_loop (now : Z) (bb : Blackboard.t) (st : Agent.stats)
    (pending : list Blackboard.axiom_row)
  : Blackboard.t * Agent.stats * option string :=
  match pending with
  | [] => (bb, st, None)
  | axiom :: rest =>
      let inverted := invert_logic (Blackboard.ax_statement axiom) in
      match Blackboard.update_axiom_inversion now bb
              (Blackboard.ax_id axiom) inverted with
      | Raised e => (bb, st, Some e)
      | Ok bb' => process_loop now bb' (Agent.task_done st) rest
      end
  end.

(** [process] *)
Definition process (now : Z) (bb : Blackboard.t) (st : Agent.stats)
  : Blackboard.t * Agent.stats * option string :=
  process_loop now bb st (Blackboard.get_pending_axioms bb).

End AxiomInverterAgent.

Module PRAAgent.

Import Blackboard.

Definition RISK_THRESHOLDS : list (string * Q) :=
  [ ("CRITICAL", 0.8%Q);
    ("HIGH", 0.6%Q);
    ("MEDIUM", 0.4%Q);
    ("LOW", 0.2%Q) ].

Definition BASE_RATES : list (string * Q) :=
  [ ("memory", 0.15%Q);
    ("concurrency", 0.20%Q);
    ("security", 0.10%Q);
    ("build", 0.05%Q);
    ("runtime", 0.12%Q);
    ("network", 0.08%Q);
    ("storage", 0.05%Q);
    ("default", 0.10%Q) ].

(** The local table [risk_keywords] of [assess_risk]. *)
Definition risk_keywords : list (string * Q) :=
  [ ("crash", 0.3%Q);
    ("fail", 0.2%Q);
    ("corrupt", 0.25%Q);
    ("leak", 0.2%Q);
    ("race", 0.25%Q);
    ("vulnerable", 0.3%Q);
    ("deadlock", 0.35%Q);
    ("overflow", 0.3%Q);
    ("undefined", 0.2%Q) ].

(** The local table [severity_keywords] of [assess_risk]. *)
Definition severity_keywords : list (string * Q) :=
  [ ("data loss", 1.0%Q);
    ("crash", 0.9%Q);
    ("security", 0.95%Q);
    ("corrupt", 0.85%Q);
    ("deadlock", 0.8%Q);
    ("memory", 0.7%Q);
    ("performance", 0.5%Q) ].

(** The local table [mechanisms] of [identify_mechanism]. *)
Definition mechanisms : list (string * string) :=
  [ ("race", "Race Condition");
    ("leak", "Resource Leak");
    ("crash", "Runtime Exception");
    ("corrupt", "Data Corruption");
    ("deadlock", "Deadlock");
    ("overflow", "Buffer Overflow");
    ("timeout", "Timeout");
    ("inconsistent", "State Inconsistency") ].

(** [axiom.get("inverted_statement", "").lower()]: the key is always in
    the row, so the default is never used, and a NULL column gives [None],
    which has no [lower]. *)
Definition inverted_lower (axiom : axiom_row) : outcome string :=
  match ax_inverted_statement axiom with
  | Some s => Ok (Py.lower s)
  | None => Raised "AttributeError"
  end.

(** [self.BASE_RATES.get(domain, self.BASE_RATES["default"])], where
    [domain] is the column of the row, NULL included. *)
Definition base_rate (domain : option string) : outcome Q :=
  match Py.dict_get BASE_RATES "default" with
  | None => Raised "KeyError"
  | Some dflt =>
      match domain with
      | None => Ok dflt
      | Some d =>
          match Py.dict_get BASE_RATES d with
          | Some rate => Ok rate
          | None => Ok dflt
          end
      end
  end.

(** The loop over [severity_keywords] of [assess_risk]. *)
Definition raise_severity (inverted : string) (severity : Q)
    (item : string * Q) : Q :=
  if Py.contains (fst item) inverted then Py.max severity (snd item)
  else severity.

(** [assess_risk]: probability and severity. *)
Definition assess_risk (axiom : axiom_row) : outcome (Q * Q) :=
  let domain := ax_domain axiom in
  match inverted_lower axiom with
  | Raised e => Raised e
  | Ok inverted =>
      match base_rate domain with
      | Raised e => Raised e
      | Ok prior =>
          let likelihood_boost :=
            Py.sum (map snd
                      (filter (fun item => Py.contains (fst item) inverted)
                              risk_keywords)) in
          let probability := Py.min 0.95%Q (prior + likelihood_boost)%Q in
          let severity :=
            fold_left (raise_severity inverted) severity_keywords 0.5%Q in
          Ok (probability, severity)
      end
  end.

(** [calculate_bayesian_probability] *)
Definition calculate_bayesian_probability (prior likelihood marginal : Q)
  : Q :=
  if Qeq_bool marginal 0 then prior
  else (likelihood * prior / marginal)%Q.

(** The loop of [categorize_risk] over the items of a threshold table. *)
Fixpoint first_level (thresholds : list (string * Q)) (risk_score : Q)
  : string :=
  match thresholds with
  | [] => "LOW"
  | (level, threshold) :: rest =>
      if Py.Qgeb risk_score threshold then level
      else first_level rest risk_score
  end.

(** [categorize_risk] *)
Definition categorize_risk (risk_score : Q) : string :=
  first_level RISK_THRESHOLDS risk_score.

(** The text of [str(x)] in an f-string for an optional column. *)
Definition str_of (x : option string) : string :=
  match x with
  | Some s => s
  | None => "None"
  end.

(** [generate_failure_description] *)
Definition generate_failure_description (axiom : axiom_row) : string :=
  ax_component axiom ++ " failure when: "
    ++ str_of (ax_inverted_statement axiom).

(** The loop of [identify_mechanism]. *)
Fixpoint first_mechanism (table : list (string * string))
    (inverted : string) : string :=
  match table with
  | [] => "Unknown Mechanism"
  | (keyword, mechanism) :: rest =>
      if Py.contains keyword inverted then mechanism
      else first_mechanism rest inverted
  end.

(** [identify_mechanism] *)
Definition identify_mechanism (axiom : axiom_row) : outcome string :=
  match inverted_lower axiom with
  | Raised e => Raised e
  | Ok inverted => Ok (first_mechanism mechanisms inverted)
  end.

(** The loop of [process] over the snapshot [inverted]; the last component
    is the exception that ended the loop, if one did. *)
Fixpoint process_loop (now : Z) (bb : t) (st : Agent.stats)
    (inverted : list axiom_row) : t * Agent.stats * option string :=
  match inverted with
  | [] => (bb, st, None)
  | axiom :: rest =>
      match assess_risk axiom with
      | Raised e => (bb, st, Some e)
      | Ok (probability, severity) =>
          if Py.Qgtb probability 0.1%Q then
            let description := generate_failure_description axiom in
            match identify_mechanism axiom with
            | Raised e => (bb, st, Some e)
            | Ok mechanism =>
                let bb' :=
                  fst (record_failure_vector now bb (ax_id axiom)
                         description probability severity
                         (Some mechanism)) in
                process_loop now bb' (Agent.task_done st) rest
            end
          else process_loop now bb st rest
      end
  end.

(** [process] *)
Definition process (now : Z) (bb : t) (st : Agent.stats)
  : t * Agent.stats * option string :=
  process_loop now bb st (get_inverted_axioms bb).

(** One turn of the loop of [Agent.run] for this agent: [process], and
    the error counter when it raised. *)
Definition run_once (now : Z) (bb : t) (st : Agent.stats)
  : t * Agent.stats :=
  match process now bb st with
  | (bb', st', None) => (bb', st')
  | (bb', st', Some _) => (bb', Agent.error_seen st')
  end.

(** The nested function [or_gate] of [fault_tree_analysis]. *)
Definition or_gate (probabilities : list Q) : Q :=
  fold_left (fun result p => (result + p - result * p)%Q) probabilities 0%Q.

(** The nested function [and_gate] of [fault_tree_analysis]. *)
Definition and_gate (probabilities : list Q) : Q :=
  fold_left (fun result p => (result * p)%Q) probabilities 1%Q.

(** A dict of the list handed to [fault_tree_analysis], as a row of
    [get_all_failure_vectors] has it: the keys read are [component] (NULL
    when the vector refers to no stored axiom), [probability], [risk_score]
    and [description]. *)
Record vector : Type := {
  v_component : option string;
  v_probability : Q;
  v_risk_score : Q;
  v_description : string
}.

(** Equality of the keys of [by_component]. *)
Definition same_component (a b : option string) : bool :=
  match a, b with
  | None, None => true
  | Some x, Some y => String.eqb x y
  | _, _ => false
  end.

(** One turn of the grouping loop: [by_component[comp].append(p)], the
    key being created at the end of the dict when it is new. *)
Fixpoint add_probability (comp : option string) (p : Q)
    (by_component : list (option string * list Q))
  : list (option string * list Q) :=
  match by_component with
  | [] => [(comp, [p])]
  | (c, probs) :: rest =>
      if same_component comp c then (c, (probs ++ [p])%list) :: rest
      else (c, probs) :: add_probability comp p rest
  end.

(** [by_component] after the grouping loop. *)
Definition group_by_component (vectors : list vector)
  : list (option string * list Q) :=
  fold_left (fun groups v =>
               add_probability (v_component v) (v_probability v) groups)
            vectors [].

(** [component_probs] *)
Definition component_probs (vectors : list vector)
  : list (option string * Q) :=
  map (fun entry => (fst entry, or_gate (snd entry)))
      (group_by_component vectors).

(** [top_event], before it is rounded. *)
Definition top_event (vectors : list vector) : Q :=
  or_gate (map snd (component_probs vectors)).

(** [sorted(vectors, key=risk_score, reverse=True)]: the sort is stable,
    so vectors of equal score keep their order. *)
Fixpoint insert_by_score (v : vector) (sorted : list vector) : list vector :=
  match sorted with
  | [] => [v]
  | x :: rest =>
      if Py.Qgtb (v_risk_score x) (v_risk_score v)
      then x :: insert_by_score v rest
      else v :: x :: rest
  end.

Definition sorted_by_score (vectors : list vector) : list vector :=
  fold_right insert_by_score [] vectors.

(** [critical] *)
Definition critical (vectors : list vector) : list vector :=
  Py.take 5 (sorted_by_score vectors).

(** The dict returned by [fault_tree_analysis]; [component_probabilities]
    is [None] when the key is absent. *)
Record fault_tree : Type := {
  top_event_probability : Q;
  component_probabilities : option (list (option string * Q));
  critical_paths : list (string * Q)
}.

Section FaultTree.

(** Python's [round(x, ndigits)] on a float, left abstract as in
    [Blackboard.get_statistics]. *)
Variable round : Q -> nat -> Q.

(** [fault_tree_analysis] *)
Definition fault_tree_analysis (vectors : list vector) : fault_tree :=
  match vectors with
  | [] => {| top_event_probability := 0%Q;
             component_probabilities := None;
             critical_paths := [] |}
  | _ :: _ =>
      {| top_event_probability := round (top_event vectors) 4;
         component_probabilities :=
           Some (map (fun kv => (fst kv, round (snd kv) 4))
                     (component_probs vectors));
         critical_paths :=
           map (fun v => (v_description v, v_risk_score v))
               (critical vectors) |}
  end.

End FaultTree.

End PRAAgent.

Module PatternRecognizerAgent.

Import Blackboard.

(** A dict of [DEFAULT_PATTERNS] once [_initialize_patterns] has stored its
    [id]. *)
Record pattern : Type := {
  p_name : string;
  p_type : string;
  p_regex : string;
  p_risk_level : string;
  p_description : string;
  p_id : Z
}.

Definition dq : string := String (ascii_of_nat 34) EmptyString.

(** [DEFAULT_PATTERNS]: name, type, regex, risk level, description. *)
Definition DEFAULT_PATTERNS
  : list (string * string * string * string * string) :=
  [ ("Singleton Pattern", "architecture",
     "shared\s*=\s*\w+\(\)|\.shared\b|static\s+let\s+instance",
     "MEDIUM",
     "Singleton introduces global state and testing difficulties");
    ("Force Unwrap", "safety", "!\s*$|!\.", "HIGH",
     "Force unwrapping can cause runtime crashes");
    ("Missing Weak Self", "memory", "\{\s*\[?\s*self\b(?!\s*\])",
     "HIGH", "Closure may retain self strongly, causing memory leak");
    ("Side Effect in Init", "lifecycle",
     "init\s*\([^)]*\)\s*\{[^}]*(?:start|fetch|load|request)", "MEDIUM",
     "Side effects in init can cause duplicate execution");
    ("Interposable Flag", "linker",
     "-interposable|-Xlinker\s+-interposable", "CRITICAL",
     "Linker flag can leak to release builds");
    ("Global Mutable State", "concurrency",
     "var\s+\w+\s*:\s*\[[^\]]+\]\s*=\s*\[\]", "HIGH",
     "Global mutable collection is race-prone");
    ("Hardcoded Credentials", "security",
     "(?:password|secret|api_key|token)\s*=\s*['\" ++ dq ++ "][^'\"
       ++ dq ++ "]+['\" ++ dq ++ "]",
     "CRITICAL", "Hardcoded credentials are security vulnerabilities");
    ("Race Condition Pattern", "concurrency",
     "DispatchQueue\.global\(\)\.async\s*\{[^}]*self\.", "HIGH",
     "Async access to self without synchronization") ].

(** The loop of [_initialize_patterns]: each pattern is stored with
    [add_pattern] and keeps the identifier it got.  All eight expressions
    are valid, so each pattern also enters [compiled_patterns]; the compiled
    expression is read by [scan_text] only and is not kept here. *)
Fixpoint initialize_loop (bb : t)
    (defaults : list (string * string * string * string * string))
  : t * list pattern :=
  match defaults with
  | [] => (bb, [])
  | (name, type, regex, risk_level, description) :: rest =>
      let (bb1, pattern_id) :=
        add_pattern bb name type regex risk_level (Some description) in
      let (bb2, compiled) := initialize_loop bb1 rest in
      (bb2,
       {| p_name := name; p_type := type; p_regex := regex;
          p_risk_level := risk_level; p_description := description;
          p_id := pattern_id |} :: compiled)
  end.

(** [_initialize_patterns]: the board and [self.compiled_patterns]. *)
Definition _initialize_patterns (bb : t) : t * list pattern :=
  initialize_loop bb DEFAULT_PATTERNS.

(** The local table [relevance_map] of [_is_pattern_relevant]. *)
Definition relevance_map : list (string * list string) :=
  [ ("memory", ["leak"; "retain"; "weak"; "strong"]);
    ("concurrency", ["race"; "async"; "thread"; "concurrent"]);
    ("security", ["vulnerable"; "exposed"; "untrusted"]);
    ("safety", ["crash"; "fail"; "unsafe"]) ].

(** [_is_pattern_relevant]; a NULL inverted statement has no [lower]. *)
Definition _is_pattern_relevant (axiom : axiom_row) (pat : pattern)
  : outcome bool :=
  match ax_inverted_statement axiom with
  | None => Raised "AttributeError"
  | Some text =>
      let inv := Py.lower text in
      let pattern_type := p_type pat in
      let keywords :=
        match Py.dict_get relevance_map pattern_type with
        | Some kws => kws
        | None => []
        end in
      Ok (existsb (fun kw => Py.contains kw inv) keywords)
  end.

(** The inner loop of [process]: the compiled patterns against one
    axiom. *)
Fixpoint patterns_loop (bb : t) (st : Agent.stats) (axiom : axiom_row)
    (compiled : list pattern) : t * Agent.stats * option string :=
  match compiled with
  | [] => (bb, st, None)
  | pat :: rest =>
      match _is_pattern_relevant axiom pat with
      | Raised e => (bb, st, Some e)
      | Ok true =>
          match increment_pattern_occurrence bb (p_id pat) with
          | Raised e => (bb, st, Some e)
          | Ok bb' => patterns_loop bb' (Agent.task_done st) axiom rest
          end
      | Ok false => patterns_loop bb st axiom rest
      end
  end.

(** [not axiom.get("inverted_statement")]: NULL or the empty text. *)
Definition no_inversion (axiom : axiom_row) : bool :=
  match ax_inverted_statement axiom with
  | None => true
  | Some text => String.eqb text EmptyString
  end.

(** The outer loop of [process] over the snapshot [inverted]. *)
Fixpoint process_loop (bb : t) (st : Agent.stats)
    (compiled : list pattern) (inverted : list axiom_row)
  : t * Agent.stats * option string :=
  match inverted with
  | [] => (bb, st, None)
  | axiom :: rest =>
      if no_inversion axiom then process_loop bb st compiled rest
      else
        match patterns_loop bb st axiom compiled with
        | (bb', st', Some e) => (bb', st', Some e)
        | (bb', st', None) => process_loop bb' st' compiled rest
        end
  end.

(** [process] *)
Definition process (bb : t) (st : Agent.stats) (compiled : list pattern)
  : t * Agent.stats * option string :=
  process_loop bb st compiled (get_inverted_axioms bb).

End PatternRecognizerAgent.

Module MultiAgentSystem.

Import Blackboard.

(** A dict of the list handed to [add_axioms_bulk]; a field is [None]
    when the key is absent. *)
Record axiom_spec : Type := {
  component : option string;
  statement : option string;
  domain : option string
}.

(** [add_axiom] *)
Definition add_axiom (now : Z) (bb : t) (component statement : string)
    (domain : option string) : t * Z :=
  Blackboard.add_axiom now bb component statement domain.

(** [add_axioms_bulk]; a dict without [statement] raises [KeyError], the
    axioms before it being stored already. *)
Fixpoint add_axioms_bulk (now : Z) (bb : t) (axioms : list axiom_spec)
  : t * option string :=
  match axioms with
  | [] => (bb, None)
  | axiom :: rest =>
      match statement axiom with
      | None => (bb, Some "KeyError")
      | Some text =>
          let comp :=
            match component axiom with
            | Some c => c
            | None => "Unknown"
            end in
          add_axioms_bulk now (fst (add_axiom now bb comp text (domain axiom)))
            rest
      end
  end.

End MultiAgentSystem.

(** ** The fragment of Python's [re] used by the signature catalog

    The catalog of [xcode_forensic.py] is compiled with [IGNORECASE],
    [MULTILINE] and [DOTALL].  Its expressions are built from literal
    characters, character sets ([\s], [\w], bracket sets), the dot, greedy
    [*] and [+] on a set, alternation and one capture group.  None of them
    uses an anchor, so [MULTILINE] has no effect, and none matches the empty
    string. *)

Module Re.

Inductive regex : Type :=
| Eps
| Chr (c : ascii)
| Set_ (p : ascii -> bool)
| Seq (r1 r2 : regex)
| Alt (r1 r2 : regex)
| Star (p : ascii -> bool)
| Plus (p : ascii -> bool)
| Group (r : regex).

(** A literal text. *)
Fixpoint lit (s : string) : regex :=
  match s with
  | EmptyString => Eps
  | String c s' => Seq (Chr c) (lit s')
  end.

(** Sequence of several expressions. *)
Fixpoint seq (rs : list regex) : regex :=
  match rs with
  | [] => Eps
  | r :: rs' => Seq r (seq rs')
  end.

(** [\s], [\w], the dot under [DOTALL], and bracket sets. *)
Definition space : ascii -> bool := Py.isspace.
Definition word : ascii -> bool :=
  fun c => (Py.isalnum c || Ascii.eqb c "_")%bool.
Definition dot : ascii -> bool := fun _ => true.
Definition none_of (chars : string) : ascii -> bool :=
  fun c => negb (Py.mem_char c chars).
Definition ascii_letter : ascii -> bool :=
  fun c => (Py.in_range 65 90 c || Py.in_range 97 122 c)%bool.
Definition ascii_word : ascii -> bool :=
  fun c => (ascii_letter c || Py.in_range 48 57 c || Ascii.eqb c "_")%bool.

(** Equality of characters under [IGNORECASE]. *)
Definition same_char (c p : ascii) : bool :=
  Ascii.eqb (Py.lower_char c) (Py.lower_char p).

(** The number of capture groups. *)
Fixpoint groups (r : regex) : nat :=
  match r with
  | Seq r1 r2 | Alt r1 r2 => groups r1 + groups r2
  | Group r1 => S (groups r1)
  | _ => 0
  end.

(** The part of [s] in front of its suffix [rest]. *)
Definition consumed (s rest : string) : string :=
  substring 0 (String.length s - String.length rest) s.

(** What a successful match gives: the text after the match and the text
    of the group, when one took part. *)
Definition result : Type := string * option string.

(** The longest run of characters of [p] first, then shorter ones, until
    the rest of the expression [k] matches. *)
Fixpoint greedy (p : ascii -> bool) (s : string)
    (k : string -> option result) : option result :=
  match s with
  | EmptyString => k s
  | String c s' =>
      if p c then
        match greedy p s' k with
        | Some res => Some res
        | None => k s
        end
      else k s
  end.

(** Backtracking match of [r] at the start of [s]; [k] matches what
    follows [r].  Alternatives are tried left to right. *)
Fixpoint go (r : regex) (s : string) (cap : option string)
    (k : string -> option string -> option result) : option result :=
  match r with
  | Eps => k s cap
  | Chr p =>
      match s with
      | String c s' => if same_char c p then k s' cap else None
      | EmptyString => None
      end
  | Set_ p =>
      match s with
      | String c s' => if p c then k s' cap else None
      | EmptyString => None
      end
  | Seq r1 r2 => go r1 s cap (fun s' cap' => go r2 s' cap' k)
  | Alt r1 r2 =>
      match go r1 s cap k with
      | Some res => Some res
      | None => go r2 s cap k
      end
  | Star p => greedy p s (fun s' => k s' cap)
  | Plus p =>
      match s with
      | String c s' =>
          if p c then greedy p s' (fun s'' => k s'' cap) else None
      | EmptyString => None
      end
  | Group r1 => go r1 s cap (fun s' _ => k s' (Some (consumed s s')))
  end.

(** [pattern.match] at the start of [s]. *)
Definition match_at (r : regex) (s : string) : option result :=
  go r s None (fun rest cap => Some (rest, cap)).

(** The entry of the list of [findall] for one match: the whole match
    when the expression has no group, the text of the group otherwise. *)
Definition item (r : regex) (whole : string) (cap : option string)
  : string :=
  match groups r with
  | O => whole
  | S _ => match cap with Some g => g | None => EmptyString end
  end.

(** [pattern.findall(s)]: matches from left to right without overlap.
    [skip] counts the characters of the last match still to pass. *)
Fixpoint findall_from (r : regex) (skip : nat) (s : string) : list string :=
  match skip with
  | S n =>
      match s with
      | EmptyString => []
      | String _ s' => findall_from r n s'
      end
  | O =>
      match match_at r s with
      | Some (rest, cap) =>
          let whole := consumed s rest in
          item r whole cap ::
            match s with
            | EmptyString => []
            | String _ s' => findall_from r (String.length whole - 1) s'
            end
      | None =>
          match s with
          | EmptyString => []
          | String _ s' => findall_from r 0 s'
          end
      end
  end.

Definition findall (r : regex) (s : string) : list string :=
  findall_from r 0 s.

(** A literal text matched with its case, as in an expression compiled
    without [IGNORECASE]; it is also what [re.escape] of a text matches. *)
Fixpoint exact (s : string) : regex :=
  match s with
  | EmptyString => Eps
  | String c s' => Seq (Set_ (Ascii.eqb c)) (exact s')
  end.

(** [re.search]: the first position, from the left, where the expression
    matches; the result is the text from that position on, with the result
    of the match. *)
Fixpoint search (r : regex) (s : string) : option (string * result) :=
  match match_at r s with
  | Some res => Some (s, res)
  | None =>
      match s with
      | EmptyString => None
      | String _ s' => search r s'
      end
  end.

(** [m.group(1)] of a match whose group took part. *)
Definition group1 (m : string * result) : string :=
  match snd (snd m) with
  | Some g => g
  | None => EmptyString
  end.

End Re.

(** ** [xcode_forensic.py]: the pattern recogniser *)

Module PatternRecognizer.

Import Re.

(** The double quote, as a one-character text and as a character. *)
Definition dq_char : ascii := ascii_of_nat 34.
Definition dq : string := String dq_char EmptyString.

(** [CodeBrainArtifact]; the free-form [metadata] is not read by the
    agents and is left out. *)
Record CodeBrainArtifact : Type := {
  id : string;
  description : string;
  code : string;
  config : string;
  source_file : string
}.

(** The library [PATTERNS]: expression, tag, description, severity. *)
Definition PATTERNS : list (string * string * string * string) :=
  [ ("-Xlinker\s+-interposable", "INTERPOSABLE_FLAG",
     "Correct -interposable flag present", "CONFIG");
    ("dlsym\s*\([^,]+,\s*\" ++ dq ++ "[a-zA-Z][a-zA-Z0-9_]*\" ++ dq,
     "UNMANGLED_SYMBOL", "dlsym with unmangled Swift symbol", "CRITICAL");
    ("XCTAssertEqual\s*\([^)]*analytics", "GIANT_TEST",
     "TCA Assertion Roulette - analytics in test", "MEDIUM");
    ("Aspnet_regiis", "DOTNET_HALLUCINATION",
     "Windows IIS command in Swift code", "HIGH");
    ("GOPATH|GOROOT|go\s+build", "GOLANG_HALLUCINATION",
     "GoLang environment/command in Swift", "HIGH");
    ("@StateObject\s+var\s+\w+\s*=\s*\w+\(\)", "INIT_LEAK",
     "StateObject initialized inline in declaration", "HIGH");
    ("@State\s+var\s+\w+\s*:\s*\w+\s*=\s*\w+\(\)", "STATE_INIT",
     "@State with inline class initialization", "MEDIUM");
    ("init\s*\([^)]*\)\s*\{[^}]*(fetch|load|start|request)",
     "INIT_SIDE_EFFECT", "Side-effect detected in initializer", "CRITICAL");
    ("force_cast|as!", "FORCE_CAST",
     "Force cast can cause runtime crash", "HIGH");
    ("try!", "FORCE_TRY",
     "Force try can cause runtime crash", "HIGH");
    ("\[\s*weak\s+self\s*\]", "WEAK_SELF",
     "Proper weak self in closure (GOOD)", "GOOD");
    ("\{\s*self\.", "STRONG_SELF_CLOSURE",
     "Strong self capture in closure - potential leak", "MEDIUM");
    ("DispatchQueue\.main\.async\s*\{[^}]*self\.", "MAIN_QUEUE_SELF",
     "Main queue async with strong self", "MEDIUM");
    ("Timer\.scheduledTimer.*selector", "TIMER_SELECTOR",
     "Timer with selector - potential retain cycle", "MEDIUM") ].

(** [re.compile] on the expressions of the library: each expression next
    to its syntax tree. *)
Definition parsed : list (string * regex) :=
  [ ("-Xlinker\s+-interposable",
     seq [lit "-Xlinker"; Plus space; lit "-interposable"]);
    ("dlsym\s*\([^,]+,\s*\" ++ dq ++ "[a-zA-Z][a-zA-Z0-9_]*\" ++ dq,
     seq [lit "dlsym"; Star space; Chr "("; Plus (none_of ","); Chr ",";
          Star space; Chr dq_char; Set_ ascii_letter; Star ascii_word;
          Chr dq_char]);
    ("XCTAssertEqual\s*\([^)]*analytics",
     seq [lit "XCTAssertEqual"; Star space; Chr "("; Star (none_of ")");
          lit "analytics"]);
    ("Aspnet_regiis", lit "Aspnet_regiis");
    ("GOPATH|GOROOT|go\s+build",
     Alt (lit "GOPATH")
         (Alt (lit "GOROOT") (seq [lit "go"; Plus space; lit "build"])));
    ("@StateObject\s+var\s+\w+\s*=\s*\w+\(\)",
     seq [lit "@StateObject"; Plus space; lit "var"; Plus space; Plus word;
          Star space; Chr "="; Star space; Plus word; lit "()"]);
    ("@State\s+var\s+\w+\s*:\s*\w+\s*=\s*\w+\(\)",
     seq [lit "@State"; Plus space; lit "var"; Plus space; Plus word;
          Star space; Chr ":"; Star space; Plus word; Star space; Chr "=";
          Star space; Plus word; lit "()"]);
    ("init\s*\([^)]*\)\s*\{[^}]*(fetch|load|start|request)",
     seq [lit "init"; Star space; Chr "("; Star (none_of ")"); Chr ")";
          Star space; Chr "{"; Star (none_of "}");
          Group (Alt (lit "fetch")
                     (Alt (lit "load")
                          (Alt (lit "start") (lit "request"))))]);
    ("force_cast|as!", Alt (lit "force_cast") (lit "as!"));
    ("try!", lit "try!");
    ("\[\s*weak\s+self\s*\]",
     seq [Chr "["; Star space; lit "weak"; Plus space; lit "self";
          Star space; Chr "]"]);
    ("\{\s*self\.", seq [Chr "{"; Star space; lit "self."]);
    ("DispatchQueue\.main\.async\s*\{[^}]*self\.",
     seq [lit "DispatchQueue.main.async"; Star space; Chr "{";
          Star (none_of "}"); lit "self."]);
    ("Timer\.scheduledTimer.*selector",
     seq [lit "Timer.scheduledTimer"; Star dot; lit "selector"]) ].

(** [re.compile(pattern, re.IGNORECASE | re.MULTILINE | re.DOTALL)];
    [None] is [re.error]. *)
Definition compile (pattern : string) : option regex :=
  Py.dict_get parsed pattern.

(** One turn of the loop of [_compile_patterns]. *)
Definition compile_rule (rule : string * string * string * string)
  : list (regex * string * string * string) :=
  let '(pattern, tag, desc, severity) := rule in
  match compile pattern with
  | Some compiled => [(compiled, tag, desc, severity)]
  | None => []
  end.

(** [self.compiled_patterns] after [_compile_patterns]. *)
Definition compiled_patterns : list (regex * string * string * string) :=
  flat_map compile_rule PATTERNS.

(** A finding: the dict with keys [type], [desc], [severity],
    [occurrences] and [samples]. *)
Record finding : Type := {
  f_type : string;
  f_desc : string;
  f_severity : string;
  f_occurrences : nat;
  f_samples : list string
}.

(** [Agent.stats] of the forensic agents. *)
Record stats : Type := {
  artifacts_analyzed : nat;
  violations_found : nat
}.

(** One turn of the first loop of [analyze]: what a compiled rule appends
    to [findings].  The entries of [matches] are texts, since no
    expression has more than one group. *)
Definition scan_rule (text : string)
    (rule : regex * string * string * string) : list finding :=
  let '(compiled, tag, desc, severity) := rule in
  if String.eqb severity "CONFIG" then []
  else
    let matches := findall compiled text in
    match matches with
    | [] => []
    | _ :: _ =>
        let found := {| f_type := tag;
                        f_desc := desc;
                        f_severity := severity;
                        f_occurrences := List.length matches;
                        f_samples := Py.take 3 matches |} in
        if negb (String.eqb severity "GOOD") then [found] else []
    end.

(** The configuration check of [analyze]. *)
Definition check_config (cfg : string) : list finding :=
  if negb (String.eqb cfg EmptyString) then
    if (negb (Py.contains "-interposable" cfg)
        && negb (Py.contains "-Xlinker" cfg))%bool
    then [{| f_type := "MISSING_INTERPOSABLE";
             f_desc := "Missing -Xlinker -interposable flag";
             f_severity := "CRITICAL";
             f_occurrences := 1;
             f_samples := ["Current flags: '" ++ cfg ++ "'"] |}]
    else []
  else [{| f_type := "NO_CONFIG";
           f_desc := "No linker configuration provided";
           f_severity := "HIGH";
           f_occurrences := 1;
           f_samples := ["Empty config context"] |}].

(** [analyze]: the findings and the updated counters of the agent. *)
Definition analyze (st : stats) (artifact : CodeBrainArtifact)
  : list finding * stats :=
  let findings :=
    (flat_map (scan_rule (code artifact)) compiled_patterns
       ++ check_config (config artifact))%list in
  (findings,
   {| artifacts_analyzed := artifacts_analyzed st + 1;
      violations_found := violations_found st + List.length findings |}).

End PatternRecognizer.

(** ** [xcode_forensic.py]: the axiom inverter and the risk assessor *)

Module AxiomInverter.

Import Re.
Import PatternRecognizer.

Definition SIDE_EFFECT_PATTERNS : list string :=
  [ "fetchData"; "loadData"; "startTimer"; "beginRequest";
    "URLSession"; "network"; "download"; "upload";
    "Timer.scheduledTimer"; "DispatchQueue.main.async";
    "NotificationCenter.default.post"; "UserDefaults.standard.set";
    "FileManager"; "write("; "save(" ].

Definition REFERENCE_PATTERNS : list string :=
  [ "class "; "AnyObject"; "NSObject"; "UIViewController" ].

(** The local list [heavy_patterns] of [analyze]. *)
Definition heavy_patterns : list string :=
  [ "URLSession.shared"; "try await"; "Actor"; "MainActor" ].

(** A violation: the dict with keys [axiom], [vector], [severity],
    [impact] and [remediation]. *)
Record violation : Type := {
  v_axiom : string;
  v_vector : string;
  v_severity : string;
  v_impact : string;
  v_remediation : string
}.

(** [r'init\s*\([^)]*\)\s*\{[^}]*' + re.escape(pattern)], compiled with
    [DOTALL]. *)
Definition init_context (pattern : string) : regex :=
  seq [exact "init"; Star space; exact "("; Star (none_of ")"); exact ")";
       Star space; exact "{"; Star (none_of "}"); exact pattern].

(** [r'var body:\s*some View\s*\{[^}]*' + re.escape(pattern)], compiled
    with [DOTALL]. *)
Definition body_context (pattern : string) : regex :=
  seq [exact "var body:"; Star space; exact "some View"; Star space;
       exact "{"; Star (none_of "}"); exact pattern].

(** The expression of the check of [dlsym] calls, with its one group. *)
Definition dlsym_call : regex :=
  seq [exact "dlsym"; Star space; exact "("; Plus (none_of ","); exact ",";
       Star space; Set_ (Ascii.eqb dq_char);
       Group (Plus (none_of dq)); Set_ (Ascii.eqb dq_char)].

Definition is_some {A : Type} (x : option A) : bool :=
  match x with
  | Some _ => true
  | None => false
  end.

(** The loop of check 1 over [SIDE_EFFECT_PATTERNS]; it stops at the first
    violation. *)
Fixpoint idempotency_loop (code : string) (patterns : list string)
  : list violation :=
  match patterns with
  | [] => []
  | pattern :: rest =>
      if Py.contains pattern code then
        let init_match := search (init_context pattern) code in
        if (is_some init_match
            || (Py.contains pattern code && Py.contains "init" code))%bool
        then [{| v_axiom := "AXIOM_IDEMPOTENCY";
                 v_vector :=
                   "Side-effect '" ++ pattern ++ "' detected in init";
                 v_severity := "CRITICAL";
                 v_impact := "Memory explosion under hot reload";
                 v_remediation :=
                   "Move '" ++ pattern ++ "' to onAppear() or Task {}" |}]
        else idempotency_loop code rest
      else idempotency_loop code rest
  end.

(** Check 1, [AXIOM_IDEMPOTENCY]. *)
Definition check_idempotency (code : string) : list violation :=
  if (Py.contains "init" code || Py.contains "init(" code)%bool
  then idempotency_loop code SIDE_EFFECT_PATTERNS
  else [].

(** The loop of check 2 over [REFERENCE_PATTERNS]. *)
Fixpoint observability_loop (code : string) (patterns : list string)
  : list violation :=
  match patterns with
  | [] => []
  | ref_pattern :: rest =>
      if Py.contains ref_pattern code
      then [{| v_axiom := "AXIOM_OBSERVABILITY";
               v_vector :=
                 "Reference type used with @State (Zombie State Risk)";
               v_severity := "HIGH";
               v_impact := "State changes may not trigger view updates";
               v_remediation := "Use @StateObject for class instances" |}]
      else observability_loop code rest
  end.

(** Check 2, [AXIOM_OBSERVABILITY]. *)
Definition check_observability (code : string) : list violation :=
  if Py.contains "@State var" code
  then observability_loop code REFERENCE_PATTERNS
  else [].

(** Check 3, [AXIOM_SYMBOLIC]. *)
Definition check_symbolic (code : string) : list violation :=
  if Py.contains "dlsym" code then
    if (negb (Py.contains "_$s" code) && Py.contains "dlsym" code)%bool then
      match search dlsym_call code with
      | Some dlsym_match =>
          let symbol := group1 dlsym_match in
          if negb (Py.startswith symbol "_$s")
          then [{| v_axiom := "AXIOM_SYMBOLIC";
                   v_vector :=
                     "dlsym called with unmangled name '" ++ symbol ++ "'";
                   v_severity := "CRITICAL";
                   v_impact := "Runtime crash - symbol not found";
                   v_remediation :=
                     "Use swift demangle or @_cdecl for stable symbols" |}]
          else []
      | None => []
      end
    else []
  else [].

(** The loop of check 4 over [heavy_patterns]. *)
Fixpoint purity_loop (code : string) (patterns : list string)
  : list violation :=
  match patterns with
  | [] => []
  | pattern :: rest =>
      if Py.contains pattern code then
        match search (body_context pattern) code with
        | Some _ =>
            [{| v_axiom := "AXIOM_PURITY";
                v_vector :=
                  "Heavy operation '" ++ pattern ++ "' in body computation";
                v_severity := "MEDIUM";
                v_impact := "UI stuttering and excessive recomputation";
                v_remediation := "Move async work to .task {} modifier" |}]
        | None => purity_loop code rest
        end
      else purity_loop code rest
  end.

(** Check 4, [AXIOM_PURITY]. *)
Definition check_purity (code : string) : list violation :=
  if Py.contains "var body: some View" code
  then purity_loop code heavy_patterns
  else [].

(** [analyze]: the violations and the updated counters of the agent. *)
Definition analyze (st : stats) (artifact : CodeBrainArtifact)
  : list violation * stats :=
  let code := PatternRecognizer.code artifact in
  let violations :=
    (check_idempotency code ++ check_observability code
       ++ check_symbolic code ++ check_purity code)%list in
  (violations,
   {| artifacts_analyzed := artifacts_analyzed st + 1;
      violations_found := violations_found st + List.length violations |}).

End AxiomInverter.

Module PRA.

Import PatternRecognizer.

Definition SEVERITY_WEIGHTS : list (string * Q) :=
  [ ("CRITICAL", 0.45%Q);
    ("HIGH", 0.30%Q);
    ("MEDIUM", 0.15%Q);
    ("LOW", 0.05%Q) ].

Definition PATTERN_WEIGHTS : list (string * Q) :=
  [ ("HALLUCINATION", 0.50%Q);
    ("SYMBOL", 0.40%Q);
    ("MEMORY", 0.35%Q);
    ("CONFIG", 0.30%Q);
    ("DEFAULT", 0.15%Q) ].

(** An entry of [risk_factors]. *)
Record factor : Type := {
  source : string;
  item : string;
  contribution : Q
}.

(** The dict [breakdown]. *)
Record breakdown : Type := {
  base_risk : Q;
  axiom_risk : Q;
  pattern_risk : Q;
  combined : Q;
  final : Q;
  factors : list factor
}.

(** [self.SEVERITY_WEIGHTS.get(severity, 0.15)] *)
Definition severity_weight (severity : string) : Q :=
  match Py.dict_get SEVERITY_WEIGHTS severity with
  | Some w => w
  | None => 0.15%Q
  end.

(** [self.PATTERN_WEIGHTS[key]]; the four keys read are in the table. *)
Definition pattern_weight (key : string) : outcome Q :=
  match Py.dict_get PATTERN_WEIGHTS key with
  | Some w => Ok w
  | None => Raised "KeyError"
  end.

(** The weight of a finding, by the first test on its type that holds. *)
Definition finding_weight (pattern_type severity : string) : outcome Q :=
  if Py.contains "HALLUCINATION" pattern_type
  then pattern_weight "HALLUCINATION"
  else if (Py.contains "SYMBOL" pattern_type
           || Py.contains "UNMANGLED" pattern_type)%bool
  then pattern_weight "SYMBOL"
  else if (Py.contains "LEAK" pattern_type
           || Py.contains "SELF" pattern_type)%bool
  then pattern_weight "MEMORY"
  else if (Py.contains "CONFIG" pattern_type
           || Py.contains "INTERPOSABLE" pattern_type)%bool
  then pattern_weight "CONFIG"
  else Ok (severity_weight severity).

(** The loop over [axiom_violations]: the sum and the factors, oldest
    first. *)
Fixpoint axioms_loop (axiom_risk : Q) (risk_factors : list factor)
    (violations : list AxiomInverter.violation) : Q * list factor :=
  match violations with
  | [] => (axiom_risk, risk_factors)
  | violation :: rest =>
      let weight := severity_weight (AxiomInverter.v_severity violation) in
      axioms_loop (axiom_risk + weight)%Q
        (risk_factors ++ [{| source := "Axiom";
                             item := AxiomInverter.v_axiom violation;
                             contribution := weight |}])%list
        rest
  end.

Section Log.

(** [math.log], the natural logarithm, which has no rational value: it is
    a parameter of the assessment.  Its argument here is a number of
    occurrences plus one, which is positive, so it raises nothing. *)
Variable math_log : Q -> Q.

(** The loop over [pattern_findings]. *)
Fixpoint findings_loop (pattern_risk : Q) (risk_factors : list factor)
    (findings : list finding) : outcome (Q * list factor) :=
  match findings with
  | [] => Ok (pattern_risk, risk_factors)
  | found :: rest =>
      match finding_weight (f_type found) (f_severity found) with
      | Raised e => Raised e
      | Ok weight =>
          let occurrences := inject_Z (Z.of_nat (f_occurrences found)) in
          let scaled_weight := (weight * math_log (occurrences + 1))%Q in
          findings_loop (pattern_risk + scaled_weight)%Q
            (risk_factors ++ [{| source := "Pattern";
                                 item := f_type found;
                                 contribution := scaled_weight |}])%list
            rest
      end
  end.

(** The certainty level of a final risk. *)
Definition certainty_of (final_risk : Q) : string :=
  if Py.Qgeb final_risk 0.9 then "CRITICAL"
  else if Py.Qgeb final_risk 0.7 then "HIGH"
  else if Py.Qgeb final_risk 0.4 then "MODERATE"
  else "LOW".

(** [assess_risk]: the final risk, the certainty and the breakdown. *)
Definition assess_risk (axiom_violations : list AxiomInverter.violation)
    (pattern_findings : list finding) : outcome (Q * string * breakdown) :=
  let base := 0.05%Q in
  let (axiom_sum, factors1) := axioms_loop 0.0%Q [] axiom_violations in
  match findings_loop 0.0%Q factors1 pattern_findings with
  | Raised e => Raised e
  | Ok (pattern_sum, risk_factors) =>
      let combined_risk := (base + axiom_sum + pattern_sum)%Q in
      if Qeq_bool (1.0 + combined_risk) 0 then Raised "ZeroDivisionError"
      else
        let final0 := (1.0 - 1.0 / (1.0 + combined_risk))%Q in
        let evidence :=
          match axiom_violations, pattern_findings with
          | [], [] => false
          | _, _ => true
          end in
        let final1 :=
          if (evidence && Py.Qgtb 0.3 final0)%bool
          then Py.max final0
                 (0.3 + 0.1 * inject_Z (Z.of_nat
                                          (List.length axiom_violations)))%Q
          else final0 in
        let final_risk := Py.min final1 0.99%Q in
        Ok (final_risk, certainty_of final_risk,
            {| base_risk := base;
               axiom_risk := axiom_sum;
               pattern_risk := pattern_sum;
               combined := combined_risk;
               final := final_risk;
               factors := risk_factors |})
  end.

End Log.

End PRA.

(** ** Runs of the system, as seen on the blackboard

    Every agent and every caller of [mas.py] acts on the blackboard through
    its methods only, each under the lock.  A run is therefore a sequence of
    such calls, with any arguments; a subscriber may also take the oldest
    item of the queue it was given. *)

Module System.

Import Blackboard.

(** [Queue.get_nowait] on the [i]-th queue handed out, when it has an
    item. *)
Fixpoint take_item (i : nat) (qs : list queue) : list queue :=
  match qs, i with
  | [], _ => []
  | q :: qs', O =>
      {| q_maxsize := q_maxsize q; q_items := tl (q_items q) |} :: qs'
  | q :: qs', S i' => q :: take_item i' qs'
  end.

Inductive step : t -> t -> Prop :=
| step_subscribe bb :
    step bb (fst (subscribe bb))
| step_add_axiom now bb component statement domain :
    step bb (fst (add_axiom now bb component statement domain))
| step_update_axiom_inversion now bb axiom_id inverted_statement bb' :
    update_axiom_inversion now bb axiom_id inverted_statement = Ok bb' ->
    step bb bb'
| step_record_failure_vector now bb axiom_id description probability
    severity mechanism :
    step bb (fst (record_failure_vector now bb axiom_id description
                    probability severity mechanism))
| step_add_pattern bb name pattern_type regex risk_level description :
    step bb (fst (add_pattern bb name pattern_type regex risk_level
                    description))
| step_increment_pattern_occurrence bb pattern_id bb' :
    increment_pattern_occurrence bb pattern_id = Ok bb' ->
    step bb bb'
| step_take_item bb i :
    step bb (set_subscribers bb (take_item i (subscribers bb))).

Inductive reachable : t -> Prop :=
| reachable_init : reachable init
| reachable_step bb bb' : reachable bb -> step bb bb' -> reachable bb'.

(** The run used as an example below: one axiom of the demonstration of
    [main] is added, the inverter runs once, then the assessor runs
    twice. *)
Definition scheduler_added : t :=
  fst (add_axiom 0 init "Scheduler"
         "Tasks execute in the order they are submitted"
         (Some "concurrency")).

Definition scheduler_inverted : t :=
  fst (fst (AxiomInverterAgent.process 1 scheduler_added Agent.init_stats)).

Definition assessed_once : t * Agent.stats * option string :=
  PRAAgent.process 2 scheduler_inverted Agent.init_stats.

Definition assessed_twice : t * Agent.stats * option string :=
  PRAAgent.process 3 (fst (fst assessed_once)) (snd (fst assessed_once)).

End System.

(** ** Notions used by the statements *)

(** A word is recognised when its lowered, stripped form is a key of one of
    the two tables. *)
Definition recognised (word : string) : bool :=
  match Py.dict_get AxiomInverterAgent.NEGATIONS
          (AxiomInverterAgent.lower_word word),
        Py.dict_get AxiomInverterAgent.INVERSIONS
          (AxiomInverterAgent.lower_word word) with
  | None, None => false
  | _, _ => true
  end.

Definition unbounded (q : Blackboard.queue) : Prop :=
  Blackboard.q_maxsize q = 0.

(** [Queue.put] on a queue that takes the item. *)
Definition enqueue (event : Blackboard.notification) (q : Blackboard.queue)
  : Blackboard.queue :=
  {| Blackboard.q_maxsize := Blackboard.q_maxsize q;
     Blackboard.q_items := (Blackboard.q_items q ++ [event])%list |}.

(** A reachable state with two subscribers, the first of which already
    holds an event. *)
Definition two_subscribers : Blackboard.t :=
  fst (Blackboard.subscribe
         (fst (Blackboard.add_axiom 0
                 (fst (Blackboard.subscribe Blackboard.init))
                 "Cache" "Cached data is always fresh and valid"
                 (Some "storage")))).

(** Two axioms of the demonstration of [main], inverted: the first, of
    domain [storage], is assessed at 0.05; the second, of domain
    [concurrency], at 0.20. *)
Definition two_inverted : Blackboard.t :=
  fst (fst (AxiomInverterAgent.process 2
              (fst (Blackboard.add_axiom 1
                      (fst (Blackboard.add_axiom 0 Blackboard.init "Database"
                              "Transactions are isolated and serializable"
                              (Some "storage")))
                      "Scheduler"
                      "Tasks execute in the order they are submitted"
                      (Some "concurrency")))
              Agent.init_stats)).

(** An artifact with a forced [try]. *)
Definition forced_try : PatternRecognizer.CodeBrainArtifact :=
  {| PatternRecognizer.id := "CB_006";
     PatternRecognizer.description := "Forced try";
     PatternRecognizer.code := "let data = try! JSONDecoder().decode(raw)";
     PatternRecognizer.config := "-Xlinker -interposable";
     PatternRecognizer.source_file := "" |}.

(** The number of failure vectors that refer to an axiom. *)
Definition records_for (axiom_id : Z) (bb : Blackboard.t) : nat :=
  List.length
    (filter (fun v => Blackboard.fv_axiom_id v =? axiom_id)
            (Blackboard.failure_vectors bb)).

(** The identifiers [1, 2, ..., n]. *)
Definition first_ids (n : nat) : list Z := map Z.of_nat (seq 1 n).

(** A sequence of calls on the blackboard. *)
Definition run : Blackboard.t -> Blackboard.t -> Prop :=
  clos_refl_trans_n1 Blackboard.t System.step.

(** The two shapes of a stored axiom: not yet inverted, or inverted. *)
Definition pending_row (r : Blackboard.axiom_row) : Prop :=
  Blackboard.ax_status r = "PENDING"
  /\ Blackboard.ax_inverted_statement r = None
  /\ Blackboard.ax_updated_at r = None.

Definition inverted_row (r : Blackboard.axiom_row) : Prop :=
  Blackboard.ax_status r = "INVERTED"
  /\ (exists text, Blackboard.ax_inverted_statement r = Some text)
  /\ (exists time, Blackboard.ax_updated_at r = Some time).

(** The columns of an axiom that are written once, at insertion. *)
Definition axiom_core (r : Blackboard.axiom_row)
  : Z * string * option string * string * Z :=
  (Blackboard.ax_id r, Blackboard.ax_component r, Blackboard.ax_domain r,
   Blackboard.ax_statement r, Blackboard.ax_created_at r).

(** The columns of a pattern other than its counter. *)
Definition pattern_core (r : Blackboard.pattern_row)
  : Z * string * string * string * string * option string :=
  (Blackboard.pt_id r, Blackboard.pt_name r, Blackboard.pt_pattern_type r,
   Blackboard.pt_regex r, Blackboard.pt_risk_level r,
   Blackboard.pt_description r).

(** * Properties *)

(** ** Comparisons on rationals *)

Lemma Qgtb_true (x y : Q) : Py.Qgtb x y = true <-> (y < x)%Q.
Proof.
  unfold Py.Qgtb. rewrite negb_true_iff.
  split; intro H.
  - apply Qnot_le_lt. intro Hle. apply Qle_bool_iff in Hle. congruence.
  - destruct (Qle_bool x y) eqn:E; [|reflexivity].
    apply Qle_bool_iff in E. exfalso. apply (Qlt_not_le _ _ H E).
Qed.

Lemma Qgtb_false (x y : Q) : Py.Qgtb x y = false <-> (x <= y)%Q.
Proof.
  unfold Py.Qgtb. rewrite negb_false_iff. apply Qle_bool_iff.
Qed.

Lemma Qgeb_true (x y : Q) : Py.Qgeb x y = true <-> (y <= x)%Q.
Proof. unfold Py.Qgeb. apply Qle_bool_iff. Qed.

Lemma Qgeb_false (x y : Q) : Py.Qgeb x y = false <-> (x < y)%Q.
Proof.
  unfold Py.Qgeb. split; intro H.
  - apply Qnot_le_lt. intro Hle. apply Qle_bool_iff in Hle. congruence.
  - destruct (Qle_bool y x) eqn:E; [|reflexivity].
    apply Qle_bool_iff in E. exfalso. apply (Qlt_not_le _ _ H E).
Qed.

(** ** The risk score of a recorded failure vector *)



(** ** The gates of the fault tree *)

Section OrGate.

Let or_step (result p : Q) : Q := (result + p - result * p)%Q.

Lemma or_fold_compat (l : list Q) :
  forall a b : Q, (a == b)%Q ->
    (fold_left or_step l a == fold_left or_step l b)%Q.
Proof.
  induction l as [|p l IH]; intros a b Hab; cbn; [exact Hab|].
  apply IH. unfold or_step. rewrite Hab. reflexivity.
Qed.

Lemma or_fold_perm (l l' : list Q) :
  Permutation l l' ->
  forall a : Q, (fold_left or_step l a == fold_left or_step l' a)%Q.
Proof.
  induction 1 as [|p l l' _ IH|p q l|l l' l'' _ IH1 _ IH2]; intro a; cbn.
  - reflexivity.
  - apply IH.
  - apply or_fold_compat. unfold or_step. ring.
  - rewrite IH1. apply IH2.
Qed.

Lemma or_fold_range (l : list Q) :
  Forall (fun p => 0 <= p <= 1)%Q l ->
  forall a : Q, (0 <= a <= 1)%Q -> (0 <= fold_left or_step l a <= 1)%Q.
Proof.
  induction 1 as [|p l Hp _ IH]; intros a Ha; cbn; [exact Ha|].
  apply IH. unfold or_step. nra.
Qed.

End OrGate.

(** C3. The OR gate gives [0] on the empty list and [p] on [[p]]; on
    [[p; p]] with [p] in [0,1] it gives [2p - p²]; it is invariant under
    permutation of its list; and on a list of values in [0,1] its result is
    in [0,1]. *)
Theorem or_gate_laws :
  forall (p : Q) (l l' : list Q),
    (PRAAgent.or_gate [] == 0)%Q
    /\ (PRAAgent.or_gate [p] == p)%Q
    /\ ((0 <= p <= 1)%Q -> (PRAAgent.or_gate [p; p] == 2 * p - p * p)%Q)
    /\ (Permutation l l' -> (PRAAgent.or_gate l == PRAAgent.or_gate l')%Q)
    /\ (Forall (fun x => 0 <= x <= 1)%Q l ->
        (0 <= PRAAgent.or_gate l <= 1)%Q).
Proof.
  intros p l l'. unfold PRAAgent.or_gate.
  split; [reflexivity|].
  split; [cbn; ring|].
  split; [intros _; cbn; ring|].
  split.
  - intro Hperm. apply (or_fold_perm l l' Hperm).
  - intro Hall. apply (or_fold_range l Hall). split; discriminate.
Qed.

Lemma or_gate_laws_witness :
  (PRAAgent.or_gate [0.5; 0.5] == 0.75)%Q
  /\ (PRAAgent.or_gate [0.2; 0.3; 0.5] == PRAAgent.or_gate [0.5; 0.2; 0.3])%Q
  /\ (0 <= PRAAgent.or_gate [0.2; 0.3; 0.5] <= 1)%Q.
Proof.
  destruct (or_gate_laws 0.5 [0.2; 0.3; 0.5] [0.5; 0.2; 0.3])%Q
    as (_ & _ & Hpp & Hperm & Hrange).
  split; [|split].
  - rewrite Hpp; [reflexivity|split; discriminate].
  - apply Hperm.
    apply Permutation_sym.
    apply (Permutation_cons_app [0.2; 0.3] [] 0.5)%Q.
    apply Permutation_refl.
  - apply Hrange. repeat constructor; discriminate.
Defined.

(** ** Risk categories *)

(** C4. [categorize_risk] maps every score in [0,1] to one of the four
    levels, by the descending thresholds 0.8, 0.6 and 0.4, and to LOW below
    them; it maps 0.85 to CRITICAL and 0.2 to LOW. *)
Theorem categorize_risk_total :
  forall score : Q,
    (0 <= score <= 1)%Q ->
    In (PRAAgent.categorize_risk score) ["CRITICAL"; "HIGH"; "MEDIUM"; "LOW"]
    /\ ((0.8 <= score)%Q <-> PRAAgent.categorize_risk score = "CRITICAL")
    /\ ((0.6 <= score < 0.8)%Q <-> PRAAgent.categorize_risk score = "HIGH")
    /\ ((0.4 <= score < 0.6)%Q <-> PRAAgent.categorize_risk score = "MEDIUM")
    /\ ((score < 0.4)%Q <-> PRAAgent.categorize_risk score = "LOW")
    /\ PRAAgent.categorize_risk 0.85 = "CRITICAL"
    /\ PRAAgent.categorize_risk 0.2 = "LOW".
Proof.
  intros score _.
  unfold PRAAgent.categorize_risk, PRAAgent.RISK_THRESHOLDS,
    PRAAgent.first_level.
  destruct (Py.Qgeb score 0.8) eqn:E1;
    [apply Qgeb_true in E1 | apply Qgeb_false in E1];
    [|destruct (Py.Qgeb score 0.6) eqn:E2;
        [apply Qgeb_true in E2 | apply Qgeb_false in E2];
        [|destruct (Py.Qgeb score 0.4) eqn:E3;
            [apply Qgeb_true in E3 | apply Qgeb_false in E3];
            [|assert (Hlow :
                        (if Py.Qgeb score 0.2 then "LOW" else "LOW") = "LOW")
                by (destruct (Py.Qgeb score 0.2); reflexivity);
              rewrite Hlow]]];
    (split; [cbn; tauto|]);
    repeat split; try reflexivity; try discriminate; try lra;
      try (intros; exfalso; lra); try (intros [? ?]; exfalso; lra).
Qed.

Lemma categorize_risk_total_witness :
  In (PRAAgent.categorize_risk 0.7) ["CRITICAL"; "HIGH"; "MEDIUM"; "LOW"]
  /\ PRAAgent.categorize_risk 0.7 = "HIGH".
Proof.
  destruct (categorize_risk_total 0.7%Q) as (Hin & _ & Hhigh & _).
  - split; discriminate.
  - split; [exact Hin|]. apply Hhigh. split; [discriminate|reflexivity].
Defined.

(** ** The inverter *)

Lemma invert_word_unrecognised (word : string) :
  recognised word = false -> AxiomInverterAgent.invert_word word = word.
Proof.
  unfold recognised, AxiomInverterAgent.invert_word.
  destruct (Py.dict_get AxiomInverterAgent.NEGATIONS _);
    [discriminate|].
  destruct (Py.dict_get AxiomInverterAgent.INVERSIONS _);
    [discriminate|reflexivity].
Qed.

Lemma map_invert_word_unrecognised (words : list string) :
  forallb (fun w => negb (recognised w)) words = true ->
  map AxiomInverterAgent.invert_word words = words.
Proof.
  induction words as [|w words IH]; cbn; [reflexivity|].
  intro H. apply andb_true_iff in H. destruct H as [Hw Hrest].
  apply negb_true_iff in Hw.
  rewrite (invert_word_unrecognised w Hw), (IH Hrest). reflexivity.
Qed.

(** Where the wrapper is returned: a statement with no recognised word
    whose words are separated by single spaces, with no space at either
    end, so that joining its words gives the statement back. *)
Lemma invert_logic_wrapper_when_joined (statement : string) :
  forallb (fun w => negb (recognised w)) (Py.split statement) = true ->
  Py.join " " (Py.split statement) = statement ->
  AxiomInverterAgent.invert_logic statement
  = "It is NOT guaranteed that: " ++ statement.
Proof.
  intros Hnone Hjoin. unfold AxiomInverterAgent.invert_logic.
  rewrite (map_invert_word_unrecognised _ Hnone), Hjoin.
  rewrite String.eqb_refl. reflexivity.
Qed.

(** C5. On the statement made of [Data] and [flows] with two spaces in
    between, no word is recognised, yet [invert_logic] returns the words
    joined by one space, not the wrapper template. *)
Theorem invert_logic_double_space :
  forallb (fun w => negb (recognised w)) (Py.split "Data  flows") = true
  /\ AxiomInverterAgent.invert_logic "Data  flows" = "Data flows"
  /\ AxiomInverterAgent.invert_logic "Data  flows"
     <> "It is NOT guaranteed that: " ++ "Data  flows".
Proof.
  split; [reflexivity|]. split; [reflexivity|]. discriminate.
Qed.

(** C9. [invert_logic] is a function of the statement alone: equal
    statements give equal results, and the result is the one computed from
    the words of the statement, the two tables and the wrapper. *)
Theorem invert_logic_deterministic :
  forall statement statement' : string,
    statement = statement' ->
    AxiomInverterAgent.invert_logic statement
    = AxiomInverterAgent.invert_logic statement'
    /\ (AxiomInverterAgent.invert_logic statement
        = Py.join " " (map AxiomInverterAgent.invert_word
                          (Py.split statement))
        \/ AxiomInverterAgent.invert_logic statement
           = "It is NOT guaranteed that: " ++ statement).
Proof.
  intros statement statement' Heq. subst statement'.
  split; [reflexivity|].
  unfold AxiomInverterAgent.invert_logic.
  destruct (String.eqb _ statement); [right|left]; reflexivity.
Qed.

Lemma invert_logic_deterministic_witness :
  AxiomInverterAgent.invert_logic "File writes are atomic and consistent"
  = AxiomInverterAgent.invert_logic "File writes are atomic and consistent".
Proof.
  apply (invert_logic_deterministic
           "File writes are atomic and consistent"
           "File writes are atomic and consistent").
  reflexivity.
Defined.

(** ** Unknown identifiers *)

(** What the two calls that bind an identifier return when they return. *)
Lemma update_axiom_inversion_ok now bb axiom_id inverted bb' :
  Blackboard.update_axiom_inversion now bb axiom_id inverted = Ok bb' ->
  Blackboard.sqlite_int axiom_id = true
  /\ bb' =
     Blackboard._notify
       (Blackboard._log_event now
          (Blackboard.set_axioms bb
             (map (Blackboard.invert_row now axiom_id inverted)
                (Blackboard.axioms bb))
             (Blackboard.seq_axioms bb))
          "AxiomInverter" "AXIOM_INVERTED"
          [("axiom_id", Blackboard.PInt axiom_id);
           ("inverted", Blackboard.PStr inverted)])
       {| Blackboard.nt_type := "AXIOM_INVERTED";
          Blackboard.nt_key := "axiom_id";
          Blackboard.nt_value := axiom_id |}.
Proof.
  unfold Blackboard.update_axiom_inversion.
  destruct (Blackboard.sqlite_int axiom_id); [|discriminate].
  intro H. injection H as <-. split; reflexivity.
Qed.

Lemma increment_pattern_occurrence_ok bb pattern_id bb' :
  Blackboard.increment_pattern_occurrence bb pattern_id = Ok bb' ->
  Blackboard.sqlite_int pattern_id = true
  /\ bb' =
     Blackboard.set_patterns bb
       (map (Blackboard.bump_row pattern_id) (Blackboard.patterns bb))
       (Blackboard.seq_patterns bb).
Proof.
  unfold Blackboard.increment_pattern_occurrence.
  destruct (Blackboard.sqlite_int pattern_id); [|discriminate].
  intro H. injection H as <-. split; reflexivity.
Qed.

Lemma invert_row_other now axiom_id inverted (rows : list Blackboard.axiom_row) :
  (forall r, In r rows -> Blackboard.ax_id r <> axiom_id) ->
  map (Blackboard.invert_row now axiom_id inverted) rows = rows.
Proof.
  induction rows as [|r rows IH]; intro Hnot; cbn; [reflexivity|].
  rewrite IH by (intros r' Hr'; apply Hnot; right; exact Hr').
  unfold Blackboard.invert_row.
  destruct (Z.eqb_spec (Blackboard.ax_id r) axiom_id) as [E|_];
    [|reflexivity].
  exfalso. apply (Hnot r); [left; reflexivity|exact E].
Qed.

Lemma bump_row_other pattern_id (rows : list Blackboard.pattern_row) :
  (forall r, In r rows -> Blackboard.pt_id r <> pattern_id) ->
  map (Blackboard.bump_row pattern_id) rows = rows.
Proof.
  induction rows as [|r rows IH]; intro Hnot; cbn; [reflexivity|].
  rewrite IH by (intros r' Hr'; apply Hnot; right; exact Hr').
  unfold Blackboard.bump_row.
  destruct (Z.eqb_spec (Blackboard.pt_id r) pattern_id) as [E|_];
    [|reflexivity].
  exfalso. apply (Hnot r); [left; reflexivity|exact E].
Qed.

(** The identifier [2^63], the first one above the signed 64-bit range, is
    unknown to the blackboard that holds the single axiom of the scheduler,
    and both calls raise [OverflowError] with it: an unknown identifier is
    not always a silent no-op. *)
Lemma unknown_id_overflow_raises :
  (forall r, In r (Blackboard.axioms System.scheduler_added) ->
             Blackboard.ax_id r <> 9223372036854775808)
  /\ (forall r, In r (Blackboard.patterns System.scheduler_added) ->
                Blackboard.pt_id r <> 9223372036854775808)
  /\ Blackboard.update_axiom_inversion 5 System.scheduler_added
       9223372036854775808 "never"
     = Raised "OverflowError"
  /\ Blackboard.increment_pattern_occurrence System.scheduler_added
       9223372036854775808
     = Raised "OverflowError".
Proof.
  repeat split.
  - intros r [Hr|[]]. subst r. discriminate.
  - intros r [].
Qed.

(** C7. With an identifier of the signed 64-bit range that no stored axiom
    has, [update_axiom_inversion] returns without raising and leaves the
    axioms, the patterns and the failure vectors as they were; with an
    identifier of that range that no stored pattern has,
    [increment_pattern_occurrence] returns without raising and leaves the
    whole blackboard as it was.  With an identifier outside that range,
    both calls raise [OverflowError]. *)
Theorem unknown_id_noop_within_int64 :
  forall (now : Z) (bb : Blackboard.t) (unknown : Z) (inverted : string),
    (Blackboard.sqlite_int unknown = true ->
     ((forall r, In r (Blackboard.axioms bb) ->
                 Blackboard.ax_id r <> unknown) ->
      exists bb',
        Blackboard.update_axiom_inversion now bb unknown inverted = Ok bb'
        /\ Blackboard.axioms bb' = Blackboard.axioms bb
        /\ Blackboard.patterns bb' = Blackboard.patterns bb
        /\ Blackboard.failure_vectors bb' = Blackboard.failure_vectors bb)
     /\ ((forall r, In r (Blackboard.patterns bb) ->
                    Blackboard.pt_id r <> unknown) ->
         Blackboard.increment_pattern_occurrence bb unknown = Ok bb))
    /\ (Blackboard.sqlite_int unknown = false ->
        Blackboard.update_axiom_inversion now bb unknown inverted
        = Raised "OverflowError"
        /\ Blackboard.increment_pattern_occurrence bb unknown
           = Raised "OverflowError").
Proof.
  intros now bb unknown inverted. split.
  - intro Hint. split.
    + intro Hnot. unfold Blackboard.update_axiom_inversion.
      rewrite Hint. eexists. split; [reflexivity|]. cbn.
      rewrite (invert_row_other _ _ _ _ Hnot).
      repeat split; reflexivity.
    + intro Hnot. unfold Blackboard.increment_pattern_occurrence.
      rewrite Hint, (bump_row_other _ _ Hnot). destruct bb; reflexivity.
  - intro Hint.
    unfold Blackboard.update_axiom_inversion,
      Blackboard.increment_pattern_occurrence.
    rewrite Hint. split; reflexivity.
Qed.

Lemma unknown_id_noop_within_int64_witness :
  (exists bb',
     Blackboard.update_axiom_inversion 5 System.scheduler_added 7 "never"
     = Ok bb'
     /\ Blackboard.axioms bb' = Blackboard.axioms System.scheduler_added
     /\ Blackboard.patterns bb' = Blackboard.patterns System.scheduler_added
     /\ Blackboard.failure_vectors bb'
        = Blackboard.failure_vectors System.scheduler_added)
  /\ Blackboard.increment_pattern_occurrence System.scheduler_added 7
     = Ok System.scheduler_added.
Proof.
  destruct (unknown_id_noop_within_int64 5 System.scheduler_added 7 "never")
    as [[Hupdate Hincrement] _]; [reflexivity|].
  split.
  - apply Hupdate. intros r [Hr|[]]. subst r. discriminate.
  - apply Hincrement. intros r [].
Defined.

(** ** Notification *)

Lemma notify_one_unbounded event q :
  unbounded q ->
  Blackboard.put_nowait q event = Some (enqueue event q).
Proof.
  unfold unbounded, Blackboard.put_nowait, Blackboard.full, enqueue.
  intro H. rewrite H. reflexivity.
Qed.

Lemma notify_one_keeps_maxsize event q :
  Blackboard.q_maxsize (Blackboard.notify_one event q)
  = Blackboard.q_maxsize q.
Proof.
  unfold Blackboard.notify_one, Blackboard.put_nowait.
  destruct (Blackboard.full q); reflexivity.
Qed.

Lemma Forall_unbounded_notify event qs :
  Forall unbounded qs ->
  Forall unbounded (map (Blackboard.notify_one event) qs).
Proof.
  intro H. apply Forall_map. eapply Forall_impl; [|exact H].
  intros q Hq. unfold unbounded. rewrite notify_one_keeps_maxsize. exact Hq.
Qed.

Lemma Forall_unbounded_take_item i qs :
  Forall unbounded qs -> Forall unbounded (System.take_item i qs).
Proof.
  intro H. revert i. induction H as [|q qs Hq Hqs IH]; intro i; cbn.
  - destruct i; constructor.
  - destruct i as [|i]; constructor.
    + exact Hq.
    + exact Hqs.
    + exact Hq.
    + apply IH.
Qed.

Lemma step_keeps_unbounded bb bb' :
  System.step bb bb' ->
  Forall unbounded (Blackboard.subscribers bb) ->
  Forall unbounded (Blackboard.subscribers bb').
Proof.
  intros Hstep H.
  destruct Hstep as [bb|now bb c s d|now bb a i bb' Hok|now bb a d p s m
                     |bb n t r l d|bb p bb' Hok|bb i]; cbn.
  - apply Forall_app. split; [exact H|]. repeat constructor.
  - apply Forall_unbounded_notify. exact H.
  - apply update_axiom_inversion_ok in Hok as [_ ->]. cbn.
    apply Forall_unbounded_notify. exact H.
  - apply Forall_unbounded_notify. exact H.
  - exact H.
  - apply increment_pattern_occurrence_ok in Hok as [_ ->]. exact H.
  - apply Forall_unbounded_take_item. exact H.
Qed.

Lemma reachable_unbounded bb :
  System.reachable bb -> Forall unbounded (Blackboard.subscribers bb).
Proof.
  induction 1 as [|bb bb' _ IH Hstep]; [constructor|].
  exact (step_keeps_unbounded bb bb' Hstep IH).
Qed.

Lemma notify_all_unbounded qs event :
  Forall unbounded qs ->
  map (Blackboard.notify_one event) qs = map (enqueue event) qs.
Proof.
  intro Hall. apply map_ext_in. intros q Hq.
  unfold Blackboard.notify_one.
  rewrite notify_one_unbounded; [reflexivity|].
  rewrite Forall_forall in Hall. apply Hall. exact Hq.
Qed.

(** C10. In every reachable state of the blackboard each subscribed queue
    is unbounded, so for every event [put_nowait] succeeds on each of them
    and [_notify] appends the event to every queue: the branch that drops
    the event is never taken.  In particular each of the three methods that
    emit an event leaves it at the end of every subscribed queue;
    [update_axiom_inversion] emits its event whenever it returns, and it
    raises only for an identifier that [sqlite3] cannot bind. *)
Theorem notify_never_drops :
  forall (bb : Blackboard.t) (event : Blackboard.notification),
    System.reachable bb ->
    Forall (fun q => Blackboard.put_nowait q event = Some (enqueue event q))
           (Blackboard.subscribers bb)
    /\ Blackboard.subscribers (Blackboard._notify bb event)
       = map (enqueue event) (Blackboard.subscribers bb)
    /\ (forall now component statement domain,
          Blackboard.subscribers
            (fst (Blackboard.add_axiom now bb component statement domain))
          = map (enqueue
                   {| Blackboard.nt_type := "AXIOM_ADDED";
                      Blackboard.nt_key := "axiom_id";
                      Blackboard.nt_value :=
                        snd (Blackboard.add_axiom now bb component statement
                               domain) |})
                (Blackboard.subscribers bb))
    /\ (forall now axiom_id inverted,
          match Blackboard.update_axiom_inversion now bb axiom_id inverted
          with
          | Ok bb' =>
              Blackboard.subscribers bb'
              = map (enqueue
                       {| Blackboard.nt_type := "AXIOM_INVERTED";
                          Blackboard.nt_key := "axiom_id";
                          Blackboard.nt_value := axiom_id |})
                    (Blackboard.subscribers bb)
          | Raised _ => Blackboard.sqlite_int axiom_id = false
          end)
    /\ (forall now axiom_id description probability severity mechanism,
          Blackboard.subscribers
            (fst (Blackboard.record_failure_vector now bb axiom_id
                    description probability severity mechanism))
          = map (enqueue
                   {| Blackboard.nt_type := "VECTOR_RECORDED";
                      Blackboard.nt_key := "vector_id";
                      Blackboard.nt_value :=
                        snd (Blackboard.record_failure_vector now bb axiom_id
                               description probability severity
                               mechanism) |})
                (Blackboard.subscribers bb)).
Proof.
  intros bb event Hreach.
  pose proof (reachable_unbounded bb Hreach) as Hall.
  split; [|split; [|split; [|split]]].
  - eapply Forall_impl; [|exact Hall].
    intros q Hq. apply notify_one_unbounded. exact Hq.
  - cbn. apply notify_all_unbounded. exact Hall.
  - intros. cbn. apply notify_all_unbounded. exact Hall.
  - intros. unfold Blackboard.update_axiom_inversion.
    destruct (Blackboard.sqlite_int axiom_id); [|reflexivity].
    cbn. apply notify_all_unbounded. exact Hall.
  - intros. cbn. apply notify_all_unbounded. exact Hall.
Qed.

Lemma notify_never_drops_witness :
  map Blackboard.q_items
    (Blackboard.subscribers
       (Blackboard._notify two_subscribers
          {| Blackboard.nt_type := "AXIOM_INVERTED";
             Blackboard.nt_key := "axiom_id";
             Blackboard.nt_value := 1 |}))
  = [ [ {| Blackboard.nt_type := "AXIOM_ADDED";
           Blackboard.nt_key := "axiom_id";
           Blackboard.nt_value := 1 |};
        {| Blackboard.nt_type := "AXIOM_INVERTED";
           Blackboard.nt_key := "axiom_id";
           Blackboard.nt_value := 1 |} ];
      [ {| Blackboard.nt_type := "AXIOM_INVERTED";
           Blackboard.nt_key := "axiom_id";
           Blackboard.nt_value := 1 |} ] ].
Proof.
  destruct (notify_never_drops two_subscribers
              {| Blackboard.nt_type := "AXIOM_INVERTED";
                 Blackboard.nt_key := "axiom_id";
                 Blackboard.nt_value := 1 |}) as (_ & H & _).
  - unfold two_subscribers.
    eapply System.reachable_step; [|apply System.step_subscribe].
    eapply System.reachable_step; [|apply System.step_add_axiom].
    eapply System.reachable_step; [|apply System.step_subscribe].
    apply System.reachable_init.
  - rewrite H. reflexivity.
Defined.

(** ** The risk assessor on the blackboard *)

Lemma inverter_loop_reachable now pending :
  forall bb st,
    System.reachable bb ->
    System.reachable
      (fst (fst (AxiomInverterAgent.process_loop now bb st pending))).
Proof.
  induction pending as [|axiom rest IH]; intros bb st Hreach; cbn;
    [exact Hreach|].
  destruct (Blackboard.update_axiom_inversion now bb
              (Blackboard.ax_id axiom)
              (AxiomInverterAgent.invert_logic
                 (Blackboard.ax_statement axiom)))
    as [bb'|e] eqn:Hok; [|exact Hreach].
  apply IH. eapply System.reachable_step; [exact Hreach|].
  eapply System.step_update_axiom_inversion. exact Hok.
Qed.

Lemma pra_loop_reachable now inverted :
  forall bb st,
    System.reachable bb ->
    System.reachable (fst (fst (PRAAgent.process_loop now bb st inverted))).
Proof.
  induction inverted as [|axiom rest IH]; intros bb st Hreach; cbn;
    [exact Hreach|].
  destruct (PRAAgent.assess_risk axiom) as [[probability severity]|e];
    [|exact Hreach].
  destruct (Py.Qgtb probability 0.1); [|apply IH; exact Hreach].
  destruct (PRAAgent.identify_mechanism axiom) as [mechanism|e];
    [|exact Hreach].
  apply IH. eapply System.reachable_step; [exact Hreach|].
  apply System.step_record_failure_vector.
Qed.

(** What the loop of the assessor appends to [failure_vectors]: one row per
    axiom of the snapshot whose probability is above 0.1, and nothing
    else.  The axioms are left as they were. *)
Lemma pra_loop_records now inverted :
  forall bb st,
    Blackboard.axioms (fst (fst (PRAAgent.process_loop now bb st inverted)))
    = Blackboard.axioms bb
    /\ exists new,
         Blackboard.failure_vectors
           (fst (fst (PRAAgent.process_loop now bb st inverted)))
         = (Blackboard.failure_vectors bb ++ new)%list
         /\ Forall
              (fun v =>
                 exists a p s,
                   In a inverted
                   /\ Blackboard.fv_axiom_id v = Blackboard.ax_id a
                   /\ PRAAgent.assess_risk a = Ok (p, s)
                   /\ (0.1 < p)%Q
                   /\ Blackboard.fv_probability v = p
                   /\ Blackboard.fv_severity v = s)
              new.
Proof.
  induction inverted as [|axiom rest IH]; intros bb st; cbn.
  - split; [reflexivity|]. exists []. rewrite app_nil_r.
    split; [reflexivity|constructor].
  - assert (Hweaken :
      forall new,
        Forall
          (fun v =>
             exists a p s,
               In a rest
               /\ Blackboard.fv_axiom_id v = Blackboard.ax_id a
               /\ PRAAgent.assess_risk a = Ok (p, s)
               /\ (0.1 < p)%Q
               /\ Blackboard.fv_probability v = p
               /\ Blackboard.fv_severity v = s) new ->
        Forall
          (fun v =>
             exists a p s,
               (axiom = a \/ In a rest)
               /\ Blackboard.fv_axiom_id v = Blackboard.ax_id a
               /\ PRAAgent.assess_risk a = Ok (p, s)
               /\ (0.1 < p)%Q
               /\ Blackboard.fv_probability v = p
               /\ Blackboard.fv_severity v = s) new).
    { intros new Hnew. eapply Forall_impl; [|exact Hnew].
      intros v (a & p & s & Hin & Hrest). exists a, p, s.
      split; [right; exact Hin|exact Hrest]. }
    destruct (PRAAgent.assess_risk axiom) as [[probability severity]|e]
      eqn:Hassess.
    2:{ split; [reflexivity|]. exists []. rewrite app_nil_r.
        split; [reflexivity|constructor]. }
    destruct (Py.Qgtb probability 0.1) eqn:Hgt.
    2:{ destruct (IH bb st) as (Hax & new & Hnew & Hall).
        split; [exact Hax|]. exists new.
        split; [exact Hnew|apply Hweaken; exact Hall]. }
    destruct (PRAAgent.identify_mechanism axiom) as [mechanism|e].
    2:{ split; [reflexivity|]. exists []. rewrite app_nil_r.
        split; [reflexivity|constructor]. }
    match goal with
    | |- context [PRAAgent.process_loop now ?b ?s rest] =>
        destruct (IH b s) as (Hax & new & Hnew & Hall)
    end.
    split; [rewrite Hax; reflexivity|].
    eexists (_ :: new). split.
    + rewrite Hnew. cbn. rewrite <- app_assoc. reflexivity.
    + constructor; [|apply Hweaken; exact Hall].
      exists axiom, probability, severity. cbn.
      apply Qgtb_true in Hgt. repeat split; auto.
Qed.

(** C1. In the run where one axiom of domain [concurrency] is added and
    inverted and the assessor then runs twice, the second run sees the same
    inverted axioms as the first, raises nothing, and leaves a reachable
    blackboard with two risk records for the one axiom. *)
Theorem assessor_records_axiom_again :
  System.reachable (fst (fst System.assessed_twice))
  /\ Blackboard.get_inverted_axioms (fst (fst System.assessed_once))
     = Blackboard.get_inverted_axioms System.scheduler_inverted
  /\ snd System.assessed_once = None
  /\ snd System.assessed_twice = None
  /\ map Blackboard.fv_axiom_id
       (Blackboard.failure_vectors (fst (fst System.assessed_once)))
     = [1]
  /\ map Blackboard.fv_axiom_id
       (Blackboard.failure_vectors (fst (fst System.assessed_twice)))
     = [1; 1].
Proof.
  split.
  - unfold System.assessed_twice, PRAAgent.process.
    apply pra_loop_reachable.
    unfold System.assessed_once, PRAAgent.process.
    apply pra_loop_reachable.
    unfold System.scheduler_inverted, AxiomInverterAgent.process.
    apply inverter_loop_reachable.
    unfold System.scheduler_added.
    eapply System.reachable_step; [apply System.reachable_init|].
    apply System.step_add_axiom.
  - repeat split; vm_compute; reflexivity.
Qed.

(** The defect behind the run above does not depend on the axiom chosen:
    a call of [process] that raises nothing adds one more record for every
    inverted axiom assessed above 0.1, whatever the blackboard already
    holds for it. *)

Lemma records_for_app (axiom_id : Z) bb new rows :
  Blackboard.failure_vectors bb = (rows ++ new)%list ->
  (List.length
     (filter (fun v => Z.eqb (Blackboard.fv_axiom_id v) axiom_id) rows)
   <= records_for axiom_id bb)%nat.
Proof.
  intro H. unfold records_for. rewrite H, filter_app, length_app. lia.
Qed.

Lemma pra_loop_keeps_records now inverted bb st axiom_id :
  (records_for axiom_id bb
   <= records_for axiom_id
        (fst (fst (PRAAgent.process_loop now bb st inverted))))%nat.
Proof.
  destruct (pra_loop_records now inverted bb st) as (_ & new & Hnew & _).
  apply (records_for_app _ _ new). exact Hnew.
Qed.

Lemma assessed_has_mechanism axiom p s :
  PRAAgent.assess_risk axiom = Ok (p, s) ->
  exists mechanism, PRAAgent.identify_mechanism axiom = Ok mechanism.
Proof.
  unfold PRAAgent.assess_risk, PRAAgent.identify_mechanism.
  destruct (PRAAgent.inverted_lower axiom); [|discriminate].
  intros _. eexists. reflexivity.
Qed.

Lemma pra_loop_adds_record now inverted :
  forall bb st a p s,
    Forall (fun x => exists px sx, PRAAgent.assess_risk x = Ok (px, sx))
           inverted ->
    In a inverted ->
    PRAAgent.assess_risk a = Ok (p, s) ->
    (0.1 < p)%Q ->
    (S (records_for (Blackboard.ax_id a) bb)
     <= records_for (Blackboard.ax_id a)
          (fst (fst (PRAAgent.process_loop now bb st inverted))))%nat.
Proof.
  induction inverted as [|axiom rest IH];
    intros bb st a p s Hall Hin Hassess Hgt; [destruct Hin|].
  inversion Hall as [|x l (px & sx & Hx) Hrest]; subst x l.
  cbn [PRAAgent.process_loop]. rewrite Hx.
  destruct (assessed_has_mechanism _ _ _ Hx) as [mechanism Hmech].
  rewrite Hmech.
  destruct Hin as [Heq|Hin].
  - subst axiom. rewrite Hassess in Hx. inversion Hx; subst px sx.
    apply Qgtb_true in Hgt. rewrite Hgt.
    eapply Nat.le_trans; [|apply pra_loop_keeps_records].
    unfold records_for. cbn. rewrite filter_app, length_app. cbn.
    rewrite Z.eqb_refl. cbn. lia.
  - destruct (Py.Qgtb px 0.1).
    + eapply Nat.le_trans; [|apply (IH _ _ a p s Hrest Hin Hassess Hgt)].
      apply le_n_S. unfold records_for. cbn.
      rewrite filter_app, length_app. lia.
    + apply (IH _ _ a p s Hrest Hin Hassess Hgt).
Qed.

Lemma assessor_adds_record_each_call now bb st a p s :
  Forall (fun x => exists px sx, PRAAgent.assess_risk x = Ok (px, sx))
         (Blackboard.get_inverted_axioms bb) ->
  In a (Blackboard.get_inverted_axioms bb) ->
  PRAAgent.assess_risk a = Ok (p, s) ->
  (0.1 < p)%Q ->
  (S (records_for (Blackboard.ax_id a) bb)
   <= records_for (Blackboard.ax_id a)
        (fst (fst (PRAAgent.process now bb st))))%nat.
Proof.
  intros. unfold PRAAgent.process. eapply pra_loop_adds_record; eassumption.
Qed.

(** C6. One call of [process] of the assessor appends to
    [failure_vectors] only rows that come from an inverted axiom whose
    assessed probability is above 0.1; an inverted axiom assessed at 0.1 or
    below, the only one with its identifier, gets no row. *)
Theorem assessor_records_only_above_threshold :
  forall (now : Z) (bb : Blackboard.t) (st : Agent.stats),
  exists new,
    Blackboard.failure_vectors (fst (fst (PRAAgent.process now bb st)))
    = (Blackboard.failure_vectors bb ++ new)%list
    /\ (forall v, In v new ->
          exists a p s,
            In a (Blackboard.get_inverted_axioms bb)
            /\ Blackboard.fv_axiom_id v = Blackboard.ax_id a
            /\ PRAAgent.assess_risk a = Ok (p, s)
            /\ (0.1 < p)%Q
            /\ Blackboard.fv_probability v = p)
    /\ (forall a p s,
          In a (Blackboard.get_inverted_axioms bb) ->
          PRAAgent.assess_risk a = Ok (p, s) ->
          (p <= 0.1)%Q ->
          (forall a', In a' (Blackboard.get_inverted_axioms bb) ->
                      Blackboard.ax_id a' = Blackboard.ax_id a -> a' = a) ->
          forall v, In v new ->
                    Blackboard.fv_axiom_id v <> Blackboard.ax_id a).
Proof.
  intros now bb st. unfold PRAAgent.process.
  destruct (pra_loop_records now (Blackboard.get_inverted_axioms bb) bb st)
    as (_ & new & Hnew & Hall).
  rewrite Forall_forall in Hall.
  exists new. split; [exact Hnew|]. split.
  - intros v Hv. destruct (Hall v Hv) as (a & p & s & H1 & H2 & H3 & H4 & H5 & _).
    exists a, p, s. auto.
  - intros a p s Ha Hassess Hle Huniq v Hv Hid.
    destruct (Hall v Hv) as (a' & p' & s' & H1 & H2 & H3 & H4 & _).
    assert (a' = a) by (apply Huniq; [exact H1|congruence]).
    subst a'. rewrite Hassess in H3. inversion H3; subst p' s'.
    apply (Qlt_not_le _ _ H4 Hle).
Qed.

Lemma assessor_records_only_above_threshold_witness :
  exists new,
    Blackboard.failure_vectors
      (fst (fst (PRAAgent.process 3 two_inverted Agent.init_stats)))
    = new
    /\ forall v, In v new -> Blackboard.fv_axiom_id v <> 1.
Proof.
  destruct (assessor_records_only_above_threshold 3 two_inverted
              Agent.init_stats) as (new & Hnew & _ & Hnone).
  exists new. split; [exact Hnew|].
  intros v Hv.
  refine (Hnone
            {| Blackboard.ax_id := 1;
               Blackboard.ax_component := "Database";
               Blackboard.ax_domain := Some "storage";
               Blackboard.ax_statement :=
                 "Transactions are isolated and serializable";
               Blackboard.ax_inverted_statement :=
                 Some "Transactions are not guaranteed to be shared and contended and serializable";
               Blackboard.ax_status := "INVERTED";
               Blackboard.ax_created_at := 0;
               Blackboard.ax_updated_at := Some 2 |}
            0.05%Q 0.5%Q _ _ _ _ v Hv).
  - left. reflexivity.
  - reflexivity.
  - discriminate.
  - intros a' [Ha'|[Ha'|[]]] Hid; subst a'; [reflexivity|discriminate].
Defined.

(** ** Direct scanning *)

Lemma match_at_force_try (s : string) :
  prefix "try!" s = true ->
  exists res, Re.match_at (Re.lit "try!") s = Some res.
Proof.
  intro Hpre.
  destruct s as [|c0 [|c1 [|c2 [|c3 s]]]]; cbn in Hpre; try discriminate;
    repeat match type of Hpre with
      | (if ?d then _ else _) = true =>
          destruct d; [subst | discriminate]
      end;
    try discriminate.
  eexists. reflexivity.
Qed.

Lemma findall_force_try_nonempty (s : string) :
  Py.contains "try!" s = true ->
  Re.findall (Re.lit "try!") s <> [].
Proof.
  unfold Re.findall.
  induction s as [|c s IH]; intro Hin.
  - discriminate.
  - cbn [Py.contains] in Hin. cbn [Re.findall_from].
    destruct (prefix "try!" (String c s)) eqn:Hpre.
    + destruct (match_at_force_try _ Hpre) as [[rest cap] Hm].
      rewrite Hm. discriminate.
    + destruct (Re.match_at (Re.lit "try!") (String c s)) as [[rest cap]|];
        [discriminate|].
      apply IH. exact Hin.
Qed.

Lemma scan_rule_spec text compiled tag desc severity f :
  In f (PatternRecognizer.scan_rule text (compiled, tag, desc, severity)) ->
  severity <> "GOOD"
  /\ severity <> "CONFIG"
  /\ Re.findall compiled text <> []
  /\ f = {| PatternRecognizer.f_type := tag;
            PatternRecognizer.f_desc := desc;
            PatternRecognizer.f_severity := severity;
            PatternRecognizer.f_occurrences :=
              List.length (Re.findall compiled text);
            PatternRecognizer.f_samples :=
              firstn 3 (Re.findall compiled text) |}.
Proof.
  unfold PatternRecognizer.scan_rule.
  destruct (String.eqb_spec severity "CONFIG") as [|Hconfig];
    [intros []|].
  destruct (Re.findall compiled text) as [|m matches] eqn:Hfound;
    [intros []|].
  destruct (String.eqb_spec severity "GOOD") as [|Hgood]; cbn [negb];
    [intros []|].
  intros [Hf|[]]. subst f.
  repeat split; try assumption; discriminate.
Qed.

Lemma force_try_compiled :
  In (Re.lit "try!", "FORCE_TRY", "Force try can cause runtime crash", "HIGH")
     PatternRecognizer.compiled_patterns.
Proof.
  do 9 right. left. reflexivity.
Qed.

Lemma check_config_spec cfg f :
  In f (PatternRecognizer.check_config cfg) ->
  PatternRecognizer.f_severity f <> "GOOD"
  /\ List.length (PatternRecognizer.f_samples f) = 1%nat.
Proof.
  unfold PatternRecognizer.check_config.
  destruct (negb (cfg =? "")%string).
  - destruct (negb (Py.contains "-interposable" cfg)
              && negb (Py.contains "-Xlinker" cfg))%bool.
    + intros [Hf|[]]; subst f; split; [discriminate|reflexivity].
    + intros [].
  - intros [Hf|[]]; subst f; split; [discriminate|reflexivity].
Qed.

(** C8. For every artifact whose code contains [try!], [analyze] returns a
    finding of type FORCE_TRY and severity HIGH, counting at least one
    occurrence; no returned finding has severity GOOD; and every returned
    finding has at most three samples: it is one of the findings of the
    configuration check, or it carries the tag, description and severity of
    a compiled rule, the number of matches of the rule in the code, and the
    first three of them. *)
Theorem analyze_force_try :
  forall (st : PatternRecognizer.stats)
         (artifact : PatternRecognizer.CodeBrainArtifact),
    Py.contains "try!" (PatternRecognizer.code artifact) = true ->
    (exists f,
       In f (fst (PatternRecognizer.analyze st artifact))
       /\ PatternRecognizer.f_type f = "FORCE_TRY"
       /\ PatternRecognizer.f_severity f = "HIGH"
       /\ (1 <= PatternRecognizer.f_occurrences f)%nat)
    /\ (forall f,
          In f (fst (PatternRecognizer.analyze st artifact)) ->
          PatternRecognizer.f_severity f <> "GOOD"
          /\ (List.length (PatternRecognizer.f_samples f) <= 3)%nat
          /\ (In f (PatternRecognizer.check_config
                      (PatternRecognizer.config artifact))
              \/ exists compiled tag desc severity,
                   In (compiled, tag, desc, severity)
                      PatternRecognizer.compiled_patterns
                   /\ PatternRecognizer.f_type f = tag
                   /\ PatternRecognizer.f_desc f = desc
                   /\ PatternRecognizer.f_severity f = severity
                   /\ PatternRecognizer.f_occurrences f
                      = List.length
                          (Re.findall compiled
                             (PatternRecognizer.code artifact))
                   /\ PatternRecognizer.f_samples f
                      = firstn 3
                          (Re.findall compiled
                             (PatternRecognizer.code artifact)))).
Proof.
  intros st artifact Hin. cbn [PatternRecognizer.analyze fst]. split.
  - pose proof (findall_force_try_nonempty _ Hin) as Hfound.
    exists {| PatternRecognizer.f_type := "FORCE_TRY";
              PatternRecognizer.f_desc := "Force try can cause runtime crash";
              PatternRecognizer.f_severity := "HIGH";
              PatternRecognizer.f_occurrences :=
                List.length
                  (Re.findall (Re.lit "try!")
                     (PatternRecognizer.code artifact));
              PatternRecognizer.f_samples :=
                firstn 3
                  (Re.findall (Re.lit "try!")
                     (PatternRecognizer.code artifact)) |}.
    split.
    + apply in_or_app. left. apply in_flat_map.
      eexists. split; [apply force_try_compiled|].
      unfold PatternRecognizer.scan_rule.
      cbn [String.eqb Ascii.eqb Bool.eqb negb].
      destruct (Re.findall (Re.lit "try!") (PatternRecognizer.code artifact))
        as [|m matches]; [contradiction|].
      left. reflexivity.
    + cbn [PatternRecognizer.f_type PatternRecognizer.f_severity
             PatternRecognizer.f_occurrences].
      repeat split.
      destruct (Re.findall (Re.lit "try!") (PatternRecognizer.code artifact));
        [contradiction|cbn [List.length]; lia].
  - intros f Hf. apply in_app_or in Hf. destruct Hf as [Hf|Hf].
    + apply in_flat_map in Hf.
      destruct Hf as ([[[compiled tag] desc] severity] & Hrule & Hf).
      destruct (scan_rule_spec _ _ _ _ _ _ Hf) as (Hgood & _ & _ & Heq).
      subst f.
      cbn [PatternRecognizer.f_type PatternRecognizer.f_desc
           PatternRecognizer.f_severity PatternRecognizer.f_occurrences
           PatternRecognizer.f_samples].
      split; [exact Hgood|]. split.
      * apply firstn_le_length.
      * right. exists compiled, tag, desc, severity.
        repeat split; try reflexivity. exact Hrule.
    + destruct (check_config_spec _ _ Hf) as [Hgood Hlen].
      split; [exact Hgood|]. split; [lia|]. left. exact Hf.
Qed.

Lemma analyze_force_try_witness :
  exists f,
    In f (fst (PatternRecognizer.analyze
                 {| PatternRecognizer.artifacts_analyzed := 0;
                    PatternRecognizer.violations_found := 0 |}
                 forced_try))
    /\ PatternRecognizer.f_type f = "FORCE_TRY"
    /\ PatternRecognizer.f_severity f = "HIGH"
    /\ (1 <= PatternRecognizer.f_occurrences f)%nat.
Proof.
  apply (analyze_force_try
           {| PatternRecognizer.artifacts_analyzed := 0;
              PatternRecognizer.violations_found := 0 |}
           forced_try).
  reflexivity.
Defined.
